(** * frisbii: the request-logging middleware (logmiddlware.go)

    A shallow embedding of [LogMiddleware] and [LoggingResponseWriter].
    Go strings are byte sequences and are modelled as [string] (a list of
    8-bit [ascii]); Go [int] is the 64-bit two's complement integer of the
    usual server platforms and is modelled as [Z] with the wrap-around of
    [+=] written out; [float64] is IEEE-754 binary64 as specified by
    [SpecFloat] with [prec = 53] and [emax = 1024].

    The functions of Go's standard library that the file calls
    ([strings.Split], [strconv.Quote], [fmt.Sprintf], [errors.Unwrap],
    [http.Error], [time.Time.Format]) are modelled from their documented
    behaviour, each under a name that recalls the Go name. *)

From Stdlib Require Import ZArith List String Ascii Bool Lia Arith.
From Stdlib Require Import Floats.SpecFloat.
Import ListNotations.

Local Open Scope string_scope.
Local Open Scope Z_scope.

(* ===================================================================== *)
(** ** Bytes and strings *)
(* ===================================================================== *)

Module Bytes.

(** The numeric value of a byte, and the byte of a number (Go's
    [byte(x)] conversion keeps the low 8 bits). *)
Definition byteZ (c : ascii) : Z := Z.of_N (N_of_ascii c).
Definition byte_of_Z (z : Z) : ascii := ascii_of_N (Z.to_N (z mod 256)).

Definition dquote : ascii := "034"%char.
Definition backslash : ascii := "092"%char.
Definition newline : ascii := "010"%char.

Definition str1 (c : ascii) : string := String c EmptyString.

(** [s[n:]] for [n <= len(s)]. *)
Fixpoint drop (n : nat) (s : string) : string :=
  match n, s with
  | O, _ => s
  | S n', String _ t => drop n' t
  | S _, EmptyString => EmptyString
  end.

Fixpoint countByte (c : ascii) (s : string) : nat :=
  match s with
  | EmptyString => O
  | String d t => ((if Ascii.eqb c d then 1 else 0) + countByte c t)%nat
  end.

Fixpoint allBytes (P : ascii -> bool) (s : string) : bool :=
  match s with
  | EmptyString => true
  | String d t => P d && allBytes P t
  end.

(** The last byte of a string, if any. *)
Fixpoint lastByte (s : string) : option ascii :=
  match s with
  | EmptyString => None
  | String c EmptyString => Some c
  | String _ t => lastByte t
  end.

(** ASCII control characters: below space, and DEL. *)
Definition isControl (c : ascii) : bool :=
  (byteZ c <? 32) || (byteZ c =? 127).


End Bytes.
Import Bytes.

(* ===================================================================== *)
(** ** Machine integers *)
(* ===================================================================== *)

Definition int_min : Z := - 2 ^ 63.
Definition int_max : Z := 2 ^ 63 - 1.

(** Two's complement wrap-around of a 64-bit signed integer. *)
Definition wrap64 (z : Z) : Z := (z + 2 ^ 63) mod 2 ^ 64 - 2 ^ 63.

(** Saturation to the 64-bit range ([time.Time.Sub] saturates). *)
Definition sat64 (z : Z) : Z := Z.max int_min (Z.min int_max z).

Definition in_int (z : Z) : Prop := int_min <= z <= int_max.

(* ===================================================================== *)
(** ** package strconv: decimal rendering and [Quote] *)
(* ===================================================================== *)

Module strconv.

Definition digitChar (d : Z) : ascii := byte_of_Z (48 + d).

(** The decimal digits of a non-negative number, most significant first:
    the divide-by-ten loop of [formatBits]. *)
Fixpoint utoaLoop (fuel : nat) (n : Z) (acc : string) : string :=
  match fuel with
  | O => acc
  | S f =>
      let acc' := String (digitChar (n mod 10)) acc in
      if n <? 10 then acc' else utoaLoop f (n / 10) acc'
  end.

Definition utoa (n : Z) : string :=
  utoaLoop (S (Z.to_nat (Z.log2 n))) n EmptyString.

(** The verb [%d]: a minus sign for negative numbers, then the digits. *)
Definition Itoa (n : Z) : string :=
  if n <? 0 then String "-" (utoa (- n)) else utoa n.

Definition lowerhex : string := "0123456789abcdef".

Definition hexDigit (z : Z) : ascii :=
  match String.get (Z.to_nat z) lowerhex with
  | Some c => c
  | None => "0"%char
  end.

(** *** package unicode/utf8 *)

Definition RuneError : Z := 65533.   (* U+FFFD *)
Definition RuneSelf : Z := 128.
Definition MaxRune : Z := 1114111.   (* U+10FFFF *)

(** The accepted range of the second byte, by first byte
    ([acceptRanges] indexed through the [first] table). *)
Definition acceptRange (s0 : Z) : Z * Z :=
  if s0 =? 224 then (160, 191)          (* E0 *)
  else if s0 =? 237 then (128, 159)     (* ED *)
  else if s0 =? 240 then (144, 191)     (* F0 *)
  else if s0 =? 244 then (128, 143)     (* F4 *)
  else (128, 191).

Definition isCont (b : Z) : bool := (128 <=? b) && (b <=? 191).

(** [utf8.DecodeRuneInString]: the rune and its width in bytes; an
    invalid encoding gives [(RuneError, 1)], the empty string
    [(RuneError, 0)]. *)
Definition DecodeRuneInString (s : string) : Z * nat :=
  match s with
  | EmptyString => (RuneError, O)
  | String c0 t =>
      let s0 := byteZ c0 in
      if s0 <? 128 then (s0, 1%nat)
      else if (s0 <? 194) || (244 <? s0) then (RuneError, 1%nat)
      else
        let sz := if s0 <? 224 then 2%nat else if s0 <? 240 then 3%nat else 4%nat in
        let '(lo, hi) := acceptRange s0 in
        if (String.length s <? sz)%nat then (RuneError, 1%nat)
        else
          match t with
          | EmptyString => (RuneError, 1%nat)
          | String c1 t1 =>
              let s1 := byteZ c1 in
              if (s1 <? lo) || (hi <? s1) then (RuneError, 1%nat)
              else if (sz <=? 2)%nat then
                (Z.lor (Z.shiftl (Z.land s0 31) 6) (Z.land s1 63), 2%nat)
              else
                match t1 with
                | EmptyString => (RuneError, 1%nat)
                | String c2 t2 =>
                    let s2 := byteZ c2 in
                    if negb (isCont s2) then (RuneError, 1%nat)
                    else if (sz <=? 3)%nat then
                      (Z.lor (Z.lor (Z.shiftl (Z.land s0 15) 12)
                                    (Z.shiftl (Z.land s1 63) 6))
                             (Z.land s2 63), 3%nat)
                    else
                      match t2 with
                      | EmptyString => (RuneError, 1%nat)
                      | String c3 _ =>
                          let s3 := byteZ c3 in
                          if negb (isCont s3) then (RuneError, 1%nat)
                          else
                            (Z.lor (Z.lor (Z.lor (Z.shiftl (Z.land s0 7) 18)
                                                 (Z.shiftl (Z.land s1 63) 12))
                                          (Z.shiftl (Z.land s2 63) 6))
                                   (Z.land s3 63), 4%nat)
                      end
                end
          end
  end.

(** [utf8.AppendRune]: the UTF-8 encoding of a rune; surrogates and
    values out of range are encoded as [RuneError]. *)
Definition cont (x : Z) : ascii := byte_of_Z (Z.lor 128 (Z.land x 63)).

Definition encode3 (r : Z) : string :=
  String (byte_of_Z (Z.lor 224 (Z.land (Z.shiftr r 12) 15)))
    (String (cont (Z.shiftr r 6)) (str1 (cont r))).

Definition AppendRune (r : Z) : string :=
  if (0 <=? r) && (r <=? 127) then str1 (byte_of_Z r)
  else if (0 <=? r) && (r <=? 2047) then
    String (byte_of_Z (Z.lor 192 (Z.land (Z.shiftr r 6) 31))) (str1 (cont r))
  else if (r <? 0) || (MaxRune <? r) || ((55296 <=? r) && (r <=? 57343)) then
    encode3 RuneError
  else if r <=? 65535 then encode3 r
  else
    String (byte_of_Z (Z.lor 240 (Z.land (Z.shiftr r 18) 7)))
      (String (cont (Z.shiftr r 12))
         (String (cont (Z.shiftr r 6)) (str1 (cont r)))).

Section Quote.

(** [strconv.IsPrint] decides the runes above Latin-1 by binary search
    in the generated Unicode tables [isPrint16], [isNotPrint16],
    [isPrint32] and [isNotPrint32]; the tables are taken as a
    parameter. *)
Variable isPrintTable : Z -> bool.

Definition IsPrint (r : Z) : bool :=
  if r <=? 255 then
    if (32 <=? r) && (r <=? 126) then true
    else if (161 <=? r) && (r <=? 255) then negb (r =? 173)
    else false
  else isPrintTable r.

Definition hexN (r : Z) (shifts : list Z) : string :=
  fold_right (fun s acc => String (hexDigit (Z.land (Z.shiftr r s) 15)) acc)
             EmptyString shifts.

(** [appendEscapedRune] with the double quote as [quote], [ASCIIonly = false] and
    [graphicOnly = false]: the bytes appended for one rune. *)
Definition escapedRune (r : Z) : string :=
  if (r =? 34) || (r =? 92) then String backslash (str1 (byte_of_Z r))
  else if IsPrint r then AppendRune r
  else if r =? 7 then "\a"
  else if r =? 8 then "\b"
  else if r =? 12 then "\f"
  else if r =? 10 then "\n"
  else if r =? 13 then "\r"
  else if r =? 9 then "\t"
  else if r =? 11 then "\v"
  else if (r <? 32) || (r =? 127) then
    String backslash (String "x" (hexN (r mod 256) [4; 0]))
  else
    let r := if (r <? 0) || (MaxRune <? r) || ((55296 <=? r) && (r <=? 57343))
             then RuneError else r in
    if r <? 65536 then String backslash (String "u" (hexN r [12; 8; 4; 0]))
    else String backslash (String "U" (hexN r [28; 24; 20; 16; 12; 8; 4; 0])).

(** The loop of [appendQuotedWith]: one rune per iteration, [width]
    bytes consumed; a byte that does not start a valid encoding is
    written as a two-digit [\x] escape. *)
Fixpoint quoteLoop (fuel : nat) (s : string) : string :=
  match fuel with
  | O => EmptyString
  | S f =>
      match s with
      | EmptyString => EmptyString
      | String c _ =>
          let '(r, width) :=
            if RuneSelf <=? byteZ c then DecodeRuneInString s
            else (byteZ c, 1%nat) in
          (if (width =? 1)%nat && (r =? RuneError) then
             String backslash
               (String "x" (String (hexDigit (Z.shiftr (byteZ c) 4))
                              (str1 (hexDigit (Z.land (byteZ c) 15)))))
           else escapedRune r)
          ++ quoteLoop f (drop width s)
      end
  end.

(** [strconv.Quote]. *)
Definition Quote (s : string) : string :=
  String dquote (quoteLoop (String.length s) s ++ str1 dquote).

End Quote.

End strconv.

(* ===================================================================== *)
(** ** float64 and the verb [%.2f] *)
(* ===================================================================== *)

Module float64.

Definition prec : Z := 53.
Definition emax : Z := 1024.

(** The conversion [float64(n)] of an integer: round to nearest, ties to
    even. *)
Definition of_int (n : Z) : spec_float := binary_normalize prec emax n 0 false.

(** The operator [/] on float64. *)
Definition div (x y : spec_float) : spec_float := SFdiv prec emax x y.

(** Rounding of the rational [num / den] ([den > 0]) to an integer, ties
    to even: the rounding of [strconv]'s exact decimal conversion. *)
Definition roundHalfEven (num den : Z) : Z :=
  let q := num / den in
  let r := num mod den in
  match 2 * r ?= den with
  | Lt => q
  | Gt => q + 1
  | Eq => if Z.even q then q else q + 1
  end.

(** The value [m * 2^e] in hundredths, rounded. *)
Definition hundredths (m : positive) (e : Z) : Z :=
  if 0 <=? e then Zpos m * 2 ^ e * 100
  else roundHalfEven (Zpos m * 100) (2 ^ (- e)).

Definition pad2 (n : Z) : string :=
  if n <? 10 then String "0" (strconv.utoa n) else strconv.utoa n.

Definition fixed2 (h : Z) : string :=
  strconv.utoa (h / 100) ++ String "." (pad2 (h mod 100)).

Definition signStr (s : bool) : string := if s then "-" else "".

(** [fmt.Sprintf("%.2f", f)]. *)
Definition Sprintf_2f (f : spec_float) : string :=
  match f with
  | S754_nan => "NaN"
  | S754_infinity s => if s then "-Inf" else "+Inf"
  | S754_zero s => signStr s ++ "0.00"
  | S754_finite s m e => signStr s ++ fixed2 (hundredths m e)
  end.

End float64.



(* ===================================================================== *)
(** ** package time *)
(* ===================================================================== *)

(** A reading of the clock: the civil fields of the wall clock in its
    location, the offset of the zone in seconds east of UTC, and the
    monotonic reading in nanoseconds. *)
Record time_Time : Type := mkTime {
  year : Z; month : Z; day : Z;
  hour : Z; minute : Z; second : Z;
  zoneOffset : Z;
  mono : Z
}.

Module time.

Fixpoint zeros (n : nat) : string :=
  match n with O => EmptyString | S k => String "0" (zeros k) end.

(** [appendInt]: the decimal form of [x], zero-padded to [width]. *)
Definition appendInt (x : Z) (width : nat) : string :=
  let u := Z.abs x in
  let ds := strconv.utoa u in
  (if x <? 0 then "-" else "") ++ zeros (width - String.length ds) ++ ds.

(** [t.Format(time.RFC3339)], the layout [2006-01-02T15:04:05Z07:00]. *)
Definition Format_RFC3339 (t : time_Time) : string :=
  appendInt (year t) 4 ++ "-" ++ appendInt (month t) 2 ++ "-" ++
  appendInt (day t) 2 ++ "T" ++ appendInt (hour t) 2 ++ ":" ++
  appendInt (minute t) 2 ++ ":" ++ appendInt (second t) 2 ++
  (if zoneOffset t =? 0 then "Z"
   else
     let zone := Z.quot (zoneOffset t) 60 in
     (if zone <? 0 then "-" else "+") ++
     appendInt (Z.quot (Z.abs zone) 60) 2 ++ ":" ++
     appendInt (Z.rem (Z.abs zone) 60) 2).

(** [t.Sub(u)] on monotonic readings: the difference, saturated to the
    range of [Duration]. *)
Definition Sub (t u : time_Time) : Z := sat64 (mono t - mono u).

(** [d.Milliseconds()]: integer division of the nanoseconds, truncated
    toward zero. *)
Definition Milliseconds (d : Z) : Z := Z.quot d 1000000.

End time.

(* ===================================================================== *)
(** ** Errors and package strings *)
(* ===================================================================== *)

(** A non-nil error value: its message and, when it wraps another error,
    the error its [Unwrap] method returns.  The chain of causes is
    finite. *)
Inductive error : Type :=
| errors_New (msg : string)
| Wrapped (msg : string) (cause : error).

(** [err.Error()]. *)
Definition Error (e : error) : string :=
  match e with errors_New m => m | Wrapped m _ => m end.

(** [errors.Unwrap(err)]: [None] is Go's [nil]. *)
Definition errors_Unwrap (e : error) : option error :=
  match e with errors_New _ => None | Wrapped _ c => Some c end.

(** [strings.Split(s, sep)] for a one-byte separator: the pieces between
    the separators, at least one piece. *)
Fixpoint strings_Split (s : string) (sep : ascii) : list string :=
  match s with
  | EmptyString => [EmptyString]
  | String c t =>
      if Ascii.eqb c sep then EmptyString :: strings_Split t sep
      else
        match strings_Split t sep with
        | x :: r => String c x :: r
        | [] => [str1 c]
        end
  end.

(* ===================================================================== *)
(** ** The request, the real sink and the state of one request *)
(* ===================================================================== *)

(** The fields of [*http.Request] that the logger reads: [URL] stands for
    the text [%s] prints for [req.URL], [UserAgent] for the value of
    [req.UserAgent()]. *)
Record Request : Type := mkRequest {
  RemoteAddr : string;
  Method : string;
  URL : string;
  UserAgent : string
}.

(** The outcome of a Go call: it returns a value or it panics. *)
Inductive Outcome (A : Type) : Type :=
| Returned (a : A)
| Panicked (v : string).
Arguments Returned {A} a.
Arguments Panicked {A} v.

(** What [Hijack] returns: the connection, the buffered reader-writer and
    the error, each possibly [nil]; the handles are opaque. *)
Definition HijackResult : Type := (option nat * option nat * option error)%type.

(** The calls the real [http.ResponseWriter] receives, in order. *)
Inductive SinkCall : Type :=
| CallHeaderSet (key value : string)
| CallWriteHeader (code : Z)
| CallWrite (b : string)
| CallHijack.

(** The real sink is an opaque collaborator: what each of its methods
    answers is a function of the calls it has received so far.
    [rwHijacker] is present exactly when the dynamic type of the sink
    implements [http.Hijacker]. *)
Record ResponseWriter : Type := mkResponseWriter {
  rwWriteHeader : list SinkCall -> Z -> Outcome unit;
  rwWrite : list SinkCall -> string -> Outcome (Z * option error);
  rwHijacker : option (list SinkCall -> Outcome HijackResult)
}.

(** The mutable fields of the struct [LoggingResponseWriter]; the embedded
    sink, the log writer and the request are references into the world
    below. *)
Record LoggingResponseWriter : Type := mkLRW {
  status : Z;
  wroteBytes : Z;
  sentBytes : Z;
  wrote : bool
}.

Definition set_status (v : Z) (w : LoggingResponseWriter) : LoggingResponseWriter :=
  mkLRW v (wroteBytes w) (sentBytes w) (wrote w).
Definition set_sentBytes (v : Z) (w : LoggingResponseWriter) : LoggingResponseWriter :=
  mkLRW (status w) (wroteBytes w) v (wrote w).
Definition set_wrote (v : bool) (w : LoggingResponseWriter) : LoggingResponseWriter :=
  mkLRW (status w) (wroteBytes w) (sentBytes w) v.

(** [NewLoggingResponseWriter]: every counter and flag at its zero value. *)
Definition NewLoggingResponseWriter : LoggingResponseWriter :=
  mkLRW 0 0 0 false.

(** Everything one request can change: the struct, the calls made on the
    real sink, the writes made on the log writer (one entry for each call
    of its [Write]), and the number of readings taken from the clock. *)
Record World : Type := mkWorld {
  lres : LoggingResponseWriter;
  sinkCalls : list SinkCall;
  logWriter : list string;
  clockReads : nat
}.

Definition set_lres (l : LoggingResponseWriter) (w : World) : World :=
  mkWorld l (sinkCalls w) (logWriter w) (clockReads w).

(** *** The monad of Go code over the world *)

Definition Go (A : Type) : Type := World -> Outcome A * World.

Definition ret {A} (a : A) : Go A := fun w => (Returned a, w).

Definition bind {A B} (m : Go A) (k : A -> Go B) : Go B :=
  fun w =>
    match m w with
    | (Returned a, w') => k a w'
    | (Panicked v, w') => (Panicked v, w')
    end.

Definition panic {A} (v : string) : Go A := fun w => (Panicked v, w).

(** [defer]: the deferred call runs when the body returns and when it
    panics; the panic of the body goes on after it, unless the deferred
    call panics itself. *)
Definition defer {A} (body : Go A) (deferred : Go unit) : Go A :=
  fun w =>
    let '(o, w1) := body w in
    match deferred w1 with
    | (Returned _, w2) => (o, w2)
    | (Panicked v, w2) => (Panicked v, w2)
    end.

Declare Scope go_scope.
Delimit Scope go_scope with go.
Notation "x <- m ;; k" := (bind m (fun x => k))
  (at level 61, m at next level, right associativity) : go_scope.
Notation "m ;; k" := (bind m (fun _ => k))
  (at level 61, right associativity) : go_scope.
Local Open Scope go_scope.

Definition getLres : Go LoggingResponseWriter := fun w => (Returned (lres w), w).
Definition modifyLres (f : LoggingResponseWriter -> LoggingResponseWriter) : Go unit :=
  fun w => (Returned tt, set_lres (f (lres w)) w).

(** The ten verbs of the format string of [Log]:
    [%s %s %s "%s" %d %d %d %s %s %s\n]. *)
Definition logLine (timestamp remoteAddr method url : string)
    (status ms bytes : Z) (ratio quotedUA quotedMsg : string) : string :=
  timestamp ++ " " ++ remoteAddr ++ " " ++ method ++ " " ++
  String dquote (url ++ String dquote
    (" " ++ strconv.Itoa status ++ " " ++ strconv.Itoa ms ++ " " ++
     strconv.Itoa bytes ++ " " ++ ratio ++ " " ++ quotedUA ++ " " ++
     quotedMsg ++ str1 newline)).

(** The loop of [LogError]: [msg] is overwritten with the message of each
    cause until [errors.Unwrap] gives [nil]. *)
Fixpoint unwrapLoop (err : error) (msg : string) : string :=
  match err with
  | Wrapped _ e => unwrapLoop e (Error e)
  | errors_New _ => msg
  end.

(** The remote address [Log] prints: the first piece of the split at the
    colons. *)
Definition remoteHost (remoteAddr : string) : string :=
  match strings_Split remoteAddr ":" with
  | s0 :: _ => s0
  | [] => remoteAddr
  end.

Definition StatusOK : Z := 200.

Section Middleware.

Variable isPrintTable : Z -> bool.
Variable clock : nat -> time_Time.
Variable res : ResponseWriter.
Variable req : Request.

Definition Quote : string -> string := strconv.Quote isPrintTable.

(** *** The environment: clock, log writer, real sink *)

(** [time.Now()]. *)
Definition time_Now : Go time_Time :=
  fun w => (Returned (clock (clockReads w)),
            mkWorld (lres w) (sinkCalls w) (logWriter w) (S (clockReads w))).

(** [time.Since(start)]. *)
Definition time_Since (start : time_Time) : Go Z :=
  now <- time_Now ;; ret (time.Sub now start).

(** [fmt.Fprintf(w.logWriter, ...)]: one [Write] of the formatted text;
    its result is dropped. *)
Definition Fprintf_logWriter (text : string) : Go unit :=
  fun w => (Returned tt,
            mkWorld (lres w) (sinkCalls w) (logWriter w ++ [text])%list (clockReads w)).

Definition sinkCall {A} (c : SinkCall) (answer : list SinkCall -> Outcome A) : Go A :=
  fun w => (answer (sinkCalls w),
            mkWorld (lres w) (sinkCalls w ++ [c])%list (logWriter w) (clockReads w)).

(** [w.ResponseWriter.Header().Set(key, value)]. *)
Definition sink_HeaderSet (key value : string) : Go unit :=
  sinkCall (CallHeaderSet key value) (fun _ => Returned tt).

Definition sink_WriteHeader (code : Z) : Go unit :=
  sinkCall (CallWriteHeader code) (fun h => rwWriteHeader res h code).

Definition sink_Write (b : string) : Go (Z * option error) :=
  sinkCall (CallWrite b) (fun h => rwWrite res h b).

(** [http.Error(w, error, code)]: two headers, the status, then the
    message and a newline ([fmt.Fprintln], result dropped).  Later
    releases of Go remove some headers of the response before that; no
    statement below depends on it. *)
Definition http_Error (msg : string) (code : Z) : Go unit :=
  sink_HeaderSet "Content-Type" "text/plain; charset=utf-8" ;;
  sink_HeaderSet "X-Content-Type-Options" "nosniff" ;;
  sink_WriteHeader code ;;
  _ <- sink_Write (msg ++ str1 newline) ;;
  ret tt.

(** *** The methods of [LoggingResponseWriter] *)

Definition CompressionRatioOf (w : LoggingResponseWriter) : string :=
  if (sentBytes w =? 0) || (wroteBytes w =? 0) || (wroteBytes w =? sentBytes w)
  then "-"
  else
    let s := float64.Sprintf_2f
               (float64.div (float64.of_int (wroteBytes w))
                            (float64.of_int (sentBytes w))) in
    if String.eqb s "0.00" then "-" else s.

Definition CompressionRatio : Go string :=
  w <- getLres ;; ret (CompressionRatioOf w).

Definition Log (status duration bytes : Z) (CompressionRatio msg : string) : Go unit :=
  w <- getLres ;;
  if wrote w then ret tt
  else
    modifyLres (set_wrote true) ;;
    let remoteAddr := remoteHost (RemoteAddr req) in
    now <- time_Now ;;
    Fprintf_logWriter
      (logLine (time.Format_RFC3339 now) remoteAddr (Method req) (URL req)
               status (time.Milliseconds duration) bytes CompressionRatio
               (Quote (UserAgent req)) (Quote msg)).

Definition LogError (status : Z) (err : error) : Go unit :=
  let msg := unwrapLoop err (Error err) in
  Log status 0 0 "-" msg ;;
  modifyLres (set_status status) ;;
  w <- getLres ;;
  if sentBytes w =? 0 then http_Error (Quote msg) status else ret tt.

Definition WriteHeader (status : Z) : Go unit :=
  modifyLres (set_status status) ;;
  sink_WriteHeader status.

Definition Write (b : string) : Go (Z * option error) :=
  w <- getLres ;;
  (if status w =? 0 then modifyLres (set_status StatusOK) else ret tt) ;;
  r <- sink_Write b ;;
  modifyLres (fun w => set_sentBytes (wrap64 (sentBytes w + fst r)) w) ;;
  ret r.

Definition Hijack : Go HijackResult :=
  match rwHijacker res with
  | Some hj => sinkCall CallHijack hj
  | None => ret (None, None, Some (errors_New "http.Hijacker not implemented"))
  end.

(** *** The downstream handler *)

(** What a handler can do with the [LoggingResponseWriter] it is given:
    the methods of the struct and, through the embedded interface, the
    header map of the real sink. *)
Inductive Op : Type :=
| OpHeaderSet (key value : string)
| OpWriteHeader (status : Z)
| OpWrite (b : string)
| OpLog (status duration bytes : Z) (CompressionRatio msg : string)
| OpLogError (status : Z) (err : error)
| OpHijack
| OpCompressionRatio.

Inductive Reply : Type :=
| RUnit
| RWrite (n : Z) (err : option error)
| RHijack (r : HijackResult)
| RRatio (s : string).

(** A handler is a strategy: it returns, it panics, or it makes a call
    and goes on according to the answer.  It runs on one goroutine and
    comes to an end. *)
Inductive Handler : Type :=
| HReturn
| HPanic (v : string)
| HCall (op : Op) (k : Reply -> Handler).

Definition runOp (op : Op) : Go Reply :=
  match op with
  | OpHeaderSet k v => sink_HeaderSet k v ;; ret RUnit
  | OpWriteHeader s => WriteHeader s ;; ret RUnit
  | OpWrite b => r <- Write b ;; ret (RWrite (fst r) (snd r))
  | OpLog s d b c m => Log s d b c m ;; ret RUnit
  | OpLogError s e => LogError s e ;; ret RUnit
  | OpHijack => r <- Hijack ;; ret (RHijack r)
  | OpCompressionRatio => r <- CompressionRatio ;; ret (RRatio r)
  end.

Fixpoint runHandler (h : Handler) : Go unit :=
  match h with
  | HReturn => ret tt
  | HPanic v => panic v
  | HCall op k => bind (runOp op) (fun r => runHandler (k r))
  end.

(** *** [LogMiddleware.ServeHTTP] *)

(** The deferred closure: the arguments are read when it runs. *)
Definition finalLog (start : time_Time) : Go unit :=
  w <- getLres ;;
  d <- time_Since start ;;
  ratio <- CompressionRatio ;;
  Log (status w) d (sentBytes w) ratio "".

Definition ServeHTTP (next : Handler) : Go unit :=
  modifyLres (fun _ => NewLoggingResponseWriter) ;;
  start <- time_Now ;;
  defer (runHandler next) (finalLog start).

End Middleware.

(* ===================================================================== *)
(** ** Notions the statements are written with *)
(* ===================================================================== *)

(** The chain of causes of an error, outermost first, and its root cause:
    the last error of the chain, the one that wraps nothing. *)
Fixpoint unwrapChain (e : error) : list error :=
  match e with
  | errors_New _ => [e]
  | Wrapped _ c => e :: unwrapChain c
  end.

Definition rootCause (e : error) : error := last (unwrapChain e) e.

(** The host-only form of a [host:port] address, as the words "strip any
    trailing port suffix" read: the text before the last colon, and the
    whole text when there is no colon. *)
Fixpoint stripTrailingPort (addr : string) : string :=
  match addr with
  | EmptyString => EmptyString
  | String c t =>
      if (countByte ":" t =? 0)%nat then
        (if Ascii.eqb c ":" then EmptyString else addr)
      else String c (stripTrailingPort t)
  end.

(** A reader of a quoted field: after the opening quote it skips the byte
    that follows each backslash and stops at the first quote that is not
    escaped; it gives what comes after that quote. *)
Fixpoint scanBody (s : string) : option string :=
  match s with
  | EmptyString => None
  | String c t =>
      if Ascii.eqb c dquote then Some t
      else if Ascii.eqb c backslash then
        match t with
        | String _ t' => scanBody t'
        | EmptyString => None
        end
      else scanBody t
  end.

Definition scanQuoted (s : string) : option string :=
  match s with
  | String c t => if Ascii.eqb c dquote then scanBody t else None
  | EmptyString => None
  end.

Definition notControl (c : ascii) : bool := negb (isControl c).

(** A byte that is neither a quote, nor a backslash, nor a control
    character. *)
Definition inert (c : ascii) : bool :=
  negb (byteZ c =? 34) && negb (byteZ c =? 92) && notControl c.

(** The pieces [Quote] is made of: inert bytes, or a backslash, one
    printable byte and inert bytes. *)
Definition goodPiece (p : string) : bool :=
  allBytes inert p ||
  match p with
  | String b (String c tail) =>
      Ascii.eqb b backslash && notControl c && allBytes inert tail
  | _ => false
  end.

(** The number a string of decimal digits stands for, read from the left
    with [acc] as the value so far. *)
Fixpoint decValue (acc : Z) (s : string) : Z :=
  match s with
  | EmptyString => acc
  | String c t => decValue (10 * acc + (byteZ c - 48)) t
  end.

(** A record is one line: its only newline is its last byte. *)
Definition oneLine (s : string) : Prop :=
  countByte newline s = 1%nat /\ lastByte s = Some newline.

(** The world at the start of a request: a new struct, the sink and the
    log writer as they are. *)
Definition fresh (w : World) : World := set_lres NewLoggingResponseWriter w.

(** A clock reading taken and dropped. *)
Definition tick (w : World) : World :=
  mkWorld (lres w) (sinkCalls w) (logWriter w) (S (clockReads w)).

(** The handler calls [Log] itself nowhere. *)
Fixpoint noDirectLog (h : Handler) : Prop :=
  match h with
  | HReturn => True
  | HPanic _ => True
  | HCall op k =>
      match op with OpLog _ _ _ _ _ => False | _ => True end /\
      forall r, noDirectLog (k r)
  end.

(** The log has grown by the records [recs] since [base], one record
    exactly when the flag [wrote] is set. *)
Definition logInv (base : list string) (w : World) : Prop :=
  exists recs, logWriter w = (base ++ recs)%list /\
               List.length recs = (if wrote (lres w) then 1 else 0)%nat.

(** *** Sample collaborators *)

Module Sample.

(** A sink that accepts every byte and cannot be hijacked. *)
Definition plainSink : ResponseWriter :=
  mkResponseWriter (fun _ _ => Returned tt)
                   (fun _ b => Returned (Z.of_nat (String.length b), None))
                   None.

(** A sink that hands over its connection. *)
Definition hijackableSink : ResponseWriter :=
  mkResponseWriter (fun _ _ => Returned tt)
                   (fun _ b => Returned (Z.of_nat (String.length b), None))
                   (Some (fun _ => Returned (Some 1%nat, Some 2%nat, None))).

(** A sink whose [Write] panics. *)
Definition brokenSink : ResponseWriter :=
  mkResponseWriter (fun _ _ => Returned tt)
                   (fun _ _ => Panicked "connection reset")
                   None.

(** A clock that advances 1.5 ms for each reading. *)
Definition clock (n : nat) : time_Time :=
  mkTime 2023 7 4 9 5 (Z.of_nat n) 0 (Z.of_nat n * 1500000).

Definition allPrintable (r : Z) : bool := true.

Definition req : Request := mkRequest "10.0.0.7:51234" "GET" "/x" "test-agent".

Definition req6 : Request := mkRequest "[::1]:8080" "GET" "/x" "test-agent".

Definition world0 : World := mkWorld NewLoggingResponseWriter [] [] 0.

Definition enospc : error :=
  Wrapped "upload failed" (Wrapped "disk full" (errors_New "ENOSPC")).

(** The handler of the end-to-end example: status 200, then ten bytes. *)
Definition writes10 : Handler :=
  HCall (OpWriteHeader 200) (fun _ => HCall (OpWrite "0123456789") (fun _ => HReturn)).

(** A handler that reports an error twice, logs again and panics. *)
Definition failsTwice : Handler :=
  HCall (OpLogError 503 enospc) (fun _ =>
  HCall (OpLogError 500 enospc) (fun _ =>
  HCall (OpLog 200 0 0 "-" "again") (fun _ => HPanic "boom"))).

End Sample.

(** *** The effects of the methods, written out *)

Section Effects.

Variable isPrintTable : Z -> bool.
Variable clock : nat -> time_Time.
Variable res : ResponseWriter.
Variable req : Request.

(** The record [Log] writes when the flag is not yet set: the clock is
    read once, at the reading [clockReads w]. *)
Definition recordOf (w : World) (status duration bytes : Z) (ratio msg : string) : string :=
  logLine (time.Format_RFC3339 (clock (clockReads w)))
          (remoteHost (RemoteAddr req)) (Method req) (URL req)
          status (time.Milliseconds duration) bytes ratio
          (Quote isPrintTable (UserAgent req)) (Quote isPrintTable msg).

(** The struct at the moment [Write] hands the bytes to the sink. *)
Definition defaulted (l : LoggingResponseWriter) : LoggingResponseWriter :=
  if status l =? 0 then set_status StatusOK l else l.

Definition errorHeaders : list SinkCall :=
  [CallHeaderSet "Content-Type" "text/plain; charset=utf-8";
   CallHeaderSet "X-Content-Type-Options" "nosniff"].

(** The calls [http.Error] makes on a sink that has received [calls]: the
    body is written when [WriteHeader] returns. *)
Definition errorResponse (calls : list SinkCall) (body : string) (code : Z) : list SinkCall :=
  match rwWriteHeader res (calls ++ errorHeaders)%list code with
  | Returned _ =>
      (errorHeaders ++ [CallWriteHeader code; CallWrite (body ++ str1 newline)])%list
  | Panicked _ => (errorHeaders ++ [CallWriteHeader code])%list
  end.

(** How [http.Error] ends on that sink. *)
Definition errorOutcome (calls : list SinkCall) (body : string) (code : Z) : Outcome unit :=
  match rwWriteHeader res (calls ++ errorHeaders)%list code with
  | Returned _ =>
      match rwWrite res (calls ++ errorHeaders ++ [CallWriteHeader code])%list
                    (body ++ str1 newline) with
      | Returned _ => Returned tt
      | Panicked v => Panicked v
      end
  | Panicked v => Panicked v
  end.

(** A record whose ratio field is the sentinel. *)
Definition sentinelRecord (line : string) : Prop :=
  exists ts st ms by_ msg,
    line = logLine ts (remoteHost (RemoteAddr req)) (Method req) (URL req)
                   st ms by_ "-"
                   (Quote isPrintTable (UserAgent req)) (Quote isPrintTable msg).

(** The world [ServeHTTP] hands to the downstream handler: a new struct,
    and the clock read once for [start]. *)
Definition atStart (w : World) : World :=
  mkWorld NewLoggingResponseWriter (sinkCalls w) (logWriter w) (S (clockReads w)).

End Effects.

(** *** Kinds of handlers, and the handler on the bare sink *)

(** The methods of the interface [http.ResponseWriter]. *)
Definition isInterfaceOp (op : Op) : bool :=
  match op with
  | OpHeaderSet _ _ | OpWriteHeader _ | OpWrite _ => true
  | _ => false
  end.

(** The operations that set no status, count no byte and log nothing. *)
Definition isPassiveOp (op : Op) : bool :=
  match op with
  | OpHeaderSet _ _ | OpHijack | OpCompressionRatio => true
  | _ => false
  end.

Definition notLogError (op : Op) : bool :=
  match op with OpLogError _ _ => false | _ => true end.

Definition notWrite (op : Op) : bool :=
  match op with OpWrite _ => false | _ => true end.

(** Every call the handler makes, whatever the answers, is allowed. *)
Fixpoint usesOnly (allowed : Op -> bool) (h : Handler) : Prop :=
  match h with
  | HReturn => True
  | HPanic _ => True
  | HCall op k => allowed op = true /\ forall r, usesOnly allowed (k r)
  end.

Section BareSink.

Variable res : ResponseWriter.

(** The bytes the sink reported as accepted for the [Write] calls among
    [calls], received after the calls [before]. *)
Fixpoint acceptedBytes (before calls : list SinkCall) : Z :=
  match calls with
  | [] => 0
  | c :: rest =>
      match c with
      | CallWrite b =>
          match rwWrite res before b with
          | Returned r => fst r
          | Panicked _ => 0
          end
      | _ => 0
      end + acceptedBytes (before ++ [c])%list rest
  end.

(** A method of the interface called on the real sink itself, without the
    [LoggingResponseWriter] in between. *)
Definition runOpDirect (op : Op) : Go Reply :=
  match op with
  | OpHeaderSet k v => sink_HeaderSet k v ;; ret RUnit
  | OpWriteHeader s => sink_WriteHeader res s ;; ret RUnit
  | OpWrite b => r <- sink_Write res b ;; ret (RWrite (fst r) (snd r))
  | _ => ret RUnit
  end.

Fixpoint runDirect (h : Handler) : Go unit :=
  match h with
  | HReturn => ret tt
  | HPanic v => panic v
  | HCall op k => bind (runOpDirect op) (fun r => runDirect (k r))
  end.

End BareSink.

Module MoreSamples.

(** A handler that takes over the connection and returns. *)
Definition hijacks : Handler := HCall OpHijack (fun _ => HReturn).

(** A world in which the record of the request is already logged. *)
Definition loggedWorld : World :=
  mkWorld (mkLRW 200 0 0 true) [] ["an earlier record"] 0.

End MoreSamples.

(* ===================================================================== *)
(** * Properties *)
(* ===================================================================== *)

(** ** Machine integers *)

Lemma wrap64_in_int (z : Z) : in_int z -> wrap64 z = z.
Proof.
  unfold in_int, int_min, int_max, wrap64. intros H.
  rewrite Z.mod_small; lia.
Qed.

Lemma wrap64_range (z : Z) : in_int (wrap64 z).
Proof.
  unfold in_int, int_min, int_max, wrap64.
  pose proof (Z.mod_pos_bound (z + 2 ^ 63) (2 ^ 64) ltac:(lia)). lia.
Qed.

(** ** The methods, as functions of the world *)

Section MethodEquations.

Variable isPrintTable : Z -> bool.
Variable clock : nat -> time_Time.
Variable res : ResponseWriter.
Variable req : Request.

Lemma Log_unfold (status duration bytes : Z) (ratio msg : string) (w : World) :
  Log isPrintTable clock req status duration bytes ratio msg w =
  (Returned tt,
   if wrote (lres w) then w
   else mkWorld (set_wrote true (lres w)) (sinkCalls w)
                (logWriter w ++ [recordOf isPrintTable clock req w status duration bytes ratio msg])%list
                (S (clockReads w))).
Proof.
  unfold Log, bind, getLres. simpl.
  destruct (wrote (lres w)); reflexivity.
Qed.

Lemma WriteHeader_unfold (s : Z) (w : World) :
  WriteHeader res s w =
  (rwWriteHeader res (sinkCalls w) s,
   mkWorld (set_status s (lres w)) (sinkCalls w ++ [CallWriteHeader s])%list
           (logWriter w) (clockReads w)).
Proof. reflexivity. Qed.

Lemma Write_unfold (b : string) (w : World) :
  Write res b w =
  match rwWrite res (sinkCalls w) b with
  | Returned r =>
      (Returned r,
       mkWorld (set_sentBytes (wrap64 (sentBytes (lres w) + fst r)) (defaulted (lres w)))
               (sinkCalls w ++ [CallWrite b])%list (logWriter w) (clockReads w))
  | Panicked v =>
      (Panicked v,
       mkWorld (defaulted (lres w)) (sinkCalls w ++ [CallWrite b])%list
               (logWriter w) (clockReads w))
  end.
Proof.
  unfold Write, defaulted, bind, getLres. simpl.
  destruct (status (lres w) =? 0); simpl;
    unfold sink_Write, sinkCall; simpl;
    destruct (rwWrite res (sinkCalls w) b); reflexivity.
Qed.

Lemma http_Error_unfold (body : string) (code : Z) (w : World) :
  http_Error res body code w =
  (errorOutcome res (sinkCalls w) body code,
   mkWorld (lres w) (sinkCalls w ++ errorResponse res (sinkCalls w) body code)%list
           (logWriter w) (clockReads w)).
Proof.
  unfold http_Error, errorOutcome, errorResponse, errorHeaders, bind, sink_HeaderSet,
    sink_WriteHeader, sink_Write, sinkCall. simpl.
  repeat (rewrite <- app_assoc; simpl).
  destruct (rwWriteHeader res _ code); simpl.
  - repeat (rewrite <- app_assoc; simpl).
    destruct (rwWrite res _ _); reflexivity.
  - repeat (rewrite <- app_assoc; simpl). reflexivity.
Qed.

Lemma last_cons_default {A} (l : list A) (x d d' : A) :
  last (x :: l) d = last (x :: l) d'.
Proof.
  revert x. induction l as [|y l IH]; intros x.
  - reflexivity.
  - change (last (y :: l) d = last (y :: l) d'). apply IH.
Qed.

Lemma rootCause_Wrapped (m : string) (c : error) :
  rootCause (Wrapped m c) = rootCause c.
Proof.
  unfold rootCause.
  change (unwrapChain (Wrapped m c)) with (Wrapped m c :: unwrapChain c).
  destruct c as [m'|m' c'].
  - reflexivity.
  - change (unwrapChain (Wrapped m' c')) with (Wrapped m' c' :: unwrapChain c').
    change (last (Wrapped m' c' :: unwrapChain c') (Wrapped m (Wrapped m' c')) =
            last (Wrapped m' c' :: unwrapChain c') (Wrapped m' c')).
    apply last_cons_default.
Qed.

Lemma rootCause_is_root (err : error) : errors_Unwrap (rootCause err) = None.
Proof.
  induction err as [m|m c IH].
  - reflexivity.
  - rewrite rootCause_Wrapped. exact IH.
Qed.

(** One turn of the loop of [LogError]. *)
Lemma unwrapLoop_step (err : error) (msg : string) :
  unwrapLoop err msg =
  match errors_Unwrap err with
  | Some e => unwrapLoop e (Error e)
  | None => msg
  end.
Proof. destruct err; reflexivity. Qed.

Lemma unwrapLoop_root (err : error) (msg : string) :
  unwrapLoop err msg =
  match errors_Unwrap err with
  | None => msg
  | Some _ => Error (rootCause err)
  end.
Proof.
  revert msg. induction err as [m|m c IH]; intros msg.
  - reflexivity.
  - cbn [unwrapLoop errors_Unwrap]. rewrite IH, rootCause_Wrapped.
    destruct c as [m'|m' c']; reflexivity.
Qed.

Lemma unwrapLoop_rootCause (err : error) :
  unwrapLoop err (Error err) = Error (rootCause err).
Proof.
  rewrite unwrapLoop_root. destruct err; reflexivity.
Qed.

Lemma LogError_unfold (s : Z) (err : error) (w : World) :
  LogError isPrintTable clock res req s err w =
  let msg := Error (rootCause err) in
  let w1 := snd (Log isPrintTable clock req s 0 0 "-" msg w) in
  if sentBytes (lres w) =? 0 then
    (errorOutcome res (sinkCalls w) (Quote isPrintTable msg) s,
     mkWorld (set_status s (lres w1))
             (sinkCalls w ++ errorResponse res (sinkCalls w) (Quote isPrintTable msg) s)%list
             (logWriter w1) (clockReads w1))
  else
    (Returned tt,
     mkWorld (set_status s (lres w1)) (sinkCalls w) (logWriter w1) (clockReads w1)).
Proof.
  unfold LogError. rewrite unwrapLoop_rootCause.
  unfold bind at 1. rewrite Log_unfold. cbv zeta. cbn [snd].
  unfold bind, modifyLres, getLres. cbn [lres set_lres].
  destruct (wrote (lres w)); cbn [lres sentBytes set_status set_wrote sinkCalls logWriter clockReads];
    destruct (sentBytes (lres w) =? 0); try reflexivity;
    rewrite http_Error_unfold; reflexivity.
Qed.

End MethodEquations.

(** ** One step of a handler *)

Section Steps.

Variable isPrintTable : Z -> bool.
Variable clock : nat -> time_Time.
Variable res : ResponseWriter.
Variable req : Request.

Lemma Hijack_unfold (w : World) :
  Hijack res w =
  match rwHijacker res with
  | Some hj =>
      (hj (sinkCalls w),
       mkWorld (lres w) (sinkCalls w ++ [CallHijack])%list (logWriter w) (clockReads w))
  | None =>
      (Returned (None, None, Some (errors_New "http.Hijacker not implemented")), w)
  end.
Proof. unfold Hijack. destruct (rwHijacker res); reflexivity. Qed.

(** What a step does to the flag, to the counter [wroteBytes] and to the
    log: nothing, or the flag goes up and one record is appended, whose
    ratio is the sentinel unless the step is a direct call of [Log]. *)
Lemma runOp_step (op : Op) (w : World) :
  let w' := snd (runOp isPrintTable clock res req op w) in
  wroteBytes (lres w') = wroteBytes (lres w) /\
  ((logWriter w' = logWriter w /\ wrote (lres w') = wrote (lres w)) \/
   (wrote (lres w) = false /\ wrote (lres w') = true /\
    exists st d b r m,
      logWriter w' =
        (logWriter w ++ [recordOf isPrintTable clock req w st d b r m])%list /\
      (match op with OpLog _ _ _ _ _ => True | _ => r = "-" end))).
Proof.
  destruct op as [k v|s|b|s d b r m|s e| |]; cbn [runOp]; unfold bind.
  - cbn. auto.
  - rewrite WriteHeader_unfold.
    destruct (rwWriteHeader res (sinkCalls w) s); cbn; auto.
  - rewrite Write_unfold. unfold defaulted.
    destruct (rwWrite res (sinkCalls w) b); destruct (status (lres w) =? 0); cbn; auto.
  - rewrite Log_unfold. cbn [snd ret].
    destruct (wrote (lres w)) eqn:Hw; cbn.
    + auto.
    + split; [reflexivity|]. right. repeat split. exists s, d, b, r, m. auto.
  - rewrite LogError_unfold. cbv zeta. rewrite Log_unfold. cbn [snd].
    destruct (sentBytes (lres w) =? 0);
      [destruct (errorOutcome res (sinkCalls w) _ s)|];
      destruct (wrote (lres w)) eqn:Hw; cbn; rewrite ?Hw; auto;
      (split; [reflexivity|]); right; repeat split;
      exists s, 0, 0, "-", (Error (rootCause e)); auto.
  - rewrite Hijack_unfold.
    destruct (rwHijacker res) as [hj|]; [destruct (hj (sinkCalls w))|]; cbn; auto.
  - cbn. auto.
Qed.

Lemma runOp_logInv (base : list string) (op : Op) (w : World) :
  logInv base w -> logInv base (snd (runOp isPrintTable clock res req op w)).
Proof.
  intros [recs [Hl Hn]].
  destruct (runOp_step op w) as [_ [[Hlog Hwr]|[Hf [Ht [st [d [b [r [m [Hlog _]]]]]]]]]].
  - exists recs. rewrite Hlog, Hwr. auto.
  - rewrite Hf in Hn. destruct recs; [|discriminate].
    exists [recordOf isPrintTable clock req w st d b r m].
    rewrite Hlog, Hl, Ht. rewrite app_nil_r. auto.
Qed.

Lemma runHandler_logInv (base : list string) (h : Handler) (w : World) :
  logInv base w -> logInv base (snd (runHandler isPrintTable clock res req h w)).
Proof.
  revert w. induction h as [|v|op k IH]; intros w Hinv.
  - exact Hinv.
  - exact Hinv.
  - cbn [runHandler]. unfold bind.
    pose proof (runOp_logInv base op w Hinv) as Hstep.
    destruct (runOp isPrintTable clock res req op w) as [[r|v] w'].
    + apply IH. exact Hstep.
    + exact Hstep.
Qed.

Lemma runHandler_wroteBytes (h : Handler) (w : World) :
  wroteBytes (lres (snd (runHandler isPrintTable clock res req h w))) =
  wroteBytes (lres w).
Proof.
  revert w. induction h as [|v|op k IH]; intros w.
  - reflexivity.
  - reflexivity.
  - cbn [runHandler]. unfold bind.
    destruct (runOp_step op w) as [Hwb _].
    destruct (runOp isPrintTable clock res req op w) as [[r|v] w'].
    + rewrite IH. exact Hwb.
    + exact Hwb.
Qed.

Lemma atStart_logInv (w : World) : logInv (logWriter w) (atStart w).
Proof. exists []. rewrite app_nil_r. split; reflexivity. Qed.

Lemma finalLog_unfold (start : time_Time) (w : World) :
  finalLog isPrintTable clock req start w =
  Log isPrintTable clock req (status (lres w))
      (time.Sub (clock (clockReads w)) start)
      (sentBytes (lres w)) (CompressionRatioOf (lres w)) "" (tick w).
Proof. reflexivity. Qed.

Lemma ServeHTTP_unfold (next : Handler) (w0 : World) :
  ServeHTTP isPrintTable clock res req next w0 =
  let r := runHandler isPrintTable clock res req next (atStart w0) in
  (fst r, snd (finalLog isPrintTable clock req (clock (clockReads w0)) (snd r))).
Proof.
  unfold ServeHTTP, bind, modifyLres, time_Now, defer. cbn [lres set_lres sinkCalls logWriter clockReads].
  change (mkWorld NewLoggingResponseWriter (sinkCalls w0) (logWriter w0) (S (clockReads w0)))
    with (atStart w0).
  destruct (runHandler isPrintTable clock res req next (atStart w0)) as [o w1].
  cbn [fst snd]. rewrite finalLog_unfold, Log_unfold. reflexivity.
Qed.

End Steps.

(** ** Bytes *)

Lemma byteZ_range (c : ascii) : 0 <= byteZ c < 256.
Proof.
  unfold byteZ. pose proof (N_ascii_bounded c). lia.
Qed.

Lemma byteZ_byte_of_Z (z : Z) : byteZ (byte_of_Z z) = z mod 256.
Proof.
  unfold byteZ, byte_of_Z.
  pose proof (Z.mod_pos_bound z 256 ltac:(lia)).
  rewrite N_ascii_embedding by lia.
  apply Z2N.id. lia.
Qed.

Lemma byteZ_inj (c d : ascii) : byteZ c = byteZ d -> c = d.
Proof.
  unfold byteZ. intros H. apply N2Z.inj in H.
  rewrite <- (ascii_N_embedding c), <- (ascii_N_embedding d). congruence.
Qed.

Lemma eqb_byteZ (c d : ascii) : Ascii.eqb c d = (byteZ c =? byteZ d).
Proof.
  destruct (Ascii.eqb_spec c d) as [->|Hne].
  - symmetry. apply Z.eqb_refl.
  - symmetry. apply Z.eqb_neq. intros H. apply Hne, byteZ_inj, H.
Qed.

Lemma byte_high_bit (z : Z) : Z.testbit z 7 = true -> 128 <= byteZ (byte_of_Z z).
Proof.
  intros Hb. rewrite byteZ_byte_of_Z.
  pose proof (Z.mod_pos_bound z 256 ltac:(lia)) as Hr.
  destruct (Z_lt_le_dec (z mod 256) 128) as [Hlt|]; [|assumption].
  exfalso.
  assert (Hf : Z.testbit (z mod 2 ^ 8) 7 = false).
  { change (2 ^ 8) with 256.
    rewrite Z.testbit_false by lia.
    rewrite Z.div_small; [reflexivity|]. change (2 ^ 7) with 128. lia. }
  rewrite Z.mod_pow2_bits_low in Hf by lia. congruence.
Qed.

(** ** Strings *)

Lemma append_assoc (a b c : string) : (a ++ b) ++ c = a ++ (b ++ c).
Proof. induction a as [|x a IH]; cbn [append]; [reflexivity | rewrite IH; reflexivity]. Qed.

Lemma append_nil_r (a : string) : a ++ EmptyString = a.
Proof. induction a as [|x a IH]; cbn [append]; [reflexivity | rewrite IH; reflexivity]. Qed.

Lemma countByte_app (c : ascii) (s t : string) :
  countByte c (s ++ t) = (countByte c s + countByte c t)%nat.
Proof.
  induction s as [|d s IH]; cbn [append countByte]; [reflexivity|].
  rewrite IH. lia.
Qed.

Lemma allBytes_app (P : ascii -> bool) (s t : string) :
  allBytes P (s ++ t) = allBytes P s && allBytes P t.
Proof.
  induction s as [|d s IH]; cbn [append allBytes]; [reflexivity|].
  rewrite IH. apply andb_assoc.
Qed.

Lemma lastByte_app_str1 (s : string) (c : ascii) : lastByte (s ++ str1 c) = Some c.
Proof.
  induction s as [|d s IH]; [reflexivity|].
  cbn [append]. destruct s as [|e s]; [reflexivity|].
  cbn [append] in *. cbn [lastByte]. exact IH.
Qed.



Lemma allBytes_impl (P Q : ascii -> bool) (s : string) :
  (forall c, P c = true -> Q c = true) -> allBytes P s = true -> allBytes Q s = true.
Proof.
  intros HPQ. induction s as [|d s IH]; cbn [allBytes]; [reflexivity|].
  rewrite !andb_true_iff. intros [H1 H2]. auto.
Qed.

Lemma notControl_no_newline (s : string) :
  allBytes notControl s = true -> countByte newline s = 0%nat.
Proof.
  induction s as [|d s IH]; cbn [allBytes countByte]; [reflexivity|].
  rewrite andb_true_iff. intros [Hd Hs]. rewrite (IH Hs).
  destruct (Ascii.eqb_spec newline d) as [<-|]; [discriminate Hd | reflexivity].
Qed.

(** ** Decimal digits *)









(** ** Timestamps *)




(** ** Quoting *)

Lemma hexDigit_inert (z : Z) : inert (strconv.hexDigit z) = true.
Proof.
  unfold strconv.hexDigit, strconv.lowerhex.
  generalize (Z.to_nat z). intros n.
  do 16 (destruct n as [|n]; [reflexivity|]).
  reflexivity.
Qed.

Lemma hexN_inert (r : Z) (shifts : list Z) : allBytes inert (strconv.hexN r shifts) = true.
Proof.
  induction shifts as [|s l IH]; [reflexivity|].
  cbn [strconv.hexN fold_right allBytes].
  rewrite hexDigit_inert. exact IH.
Qed.

Lemma high_byte_inert (c : ascii) : 128 <= byteZ c -> inert c = true.
Proof. unfold inert, notControl, isControl. lia. Qed.

Lemma lor_high_inert (k x : Z) :
  Z.testbit k 7 = true -> inert (byte_of_Z (Z.lor k x)) = true.
Proof.
  intros Hk. apply high_byte_inert, byte_high_bit.
  rewrite Z.lor_spec, Hk. reflexivity.
Qed.

Lemma cont_inert (x : Z) : inert (strconv.cont x) = true.
Proof. apply lor_high_inert. reflexivity. Qed.

Lemma encode3_inert (r : Z) : allBytes inert (strconv.encode3 r) = true.
Proof.
  unfold strconv.encode3, str1. cbn [allBytes].
  rewrite !cont_inert, lor_high_inert by reflexivity. reflexivity.
Qed.

(** The bytes of a printable rune other than the quote and the backslash
    are inert. *)
Lemma AppendRune_inert (isPrintTable : Z -> bool) (r : Z) :
  strconv.IsPrint isPrintTable r = true -> r <> 34 -> r <> 92 ->
  allBytes inert (strconv.AppendRune r) = true.
Proof.
  intros Hp H34 H92. unfold strconv.AppendRune.
  destruct ((0 <=? r) && (r <=? 127)) eqn:H1.
  - unfold str1. cbn [allBytes]. rewrite andb_true_r.
    assert (Hr : 32 <= r <= 126).
    { revert Hp. unfold strconv.IsPrint.
      destruct (32 <=? r) eqn:E1; destruct (r <=? 126) eqn:E2; [lia| | |];
        destruct (r <=? 255) eqn:E3; destruct (161 <=? r) eqn:E4;
        cbn [andb]; intros Hp; solve [lia | discriminate Hp]. }
    unfold inert, notControl, isControl. rewrite byteZ_byte_of_Z.
    rewrite Z.mod_small by lia. lia.
  - destruct ((0 <=? r) && (r <=? 2047)).
    + unfold str1. cbn [allBytes].
      rewrite cont_inert, lor_high_inert by reflexivity. reflexivity.
    + destruct ((r <? 0) || (strconv.MaxRune <? r) || ((55296 <=? r) && (r <=? 57343))).
      * apply encode3_inert.
      * destruct (r <=? 65535); [apply encode3_inert|].
        unfold str1. cbn [allBytes].
        rewrite !cont_inert, lor_high_inert by reflexivity. reflexivity.
Qed.

Lemma escapedRune_good (isPrintTable : Z -> bool) (r : Z) :
  goodPiece (strconv.escapedRune isPrintTable r) = true.
Proof.
  unfold strconv.escapedRune.
  destruct ((r =? 34) || (r =? 92)) eqn:Hq.
  - assert (Hr : r = 34 \/ r = 92) by lia.
    destruct Hr as [-> | ->]; reflexivity.
  - destruct (strconv.IsPrint isPrintTable r) eqn:Hp.
    + unfold goodPiece. rewrite (AppendRune_inert isPrintTable) by (assumption || lia).
      reflexivity.
    + repeat match goal with
             | |- goodPiece (if ?b then _ else _) = true => destruct b; [reflexivity|]
             end.
      destruct ((r <? 32) || (r =? 127)).
      * unfold goodPiece. cbn [allBytes]. rewrite hexN_inert.
        rewrite orb_true_iff. right. reflexivity.
      * cbv zeta.
        match goal with
        | |- goodPiece (if ?b then _ else _) = true => destruct b
        end; unfold goodPiece; cbn [allBytes]; rewrite hexN_inert;
          rewrite orb_true_iff; right; reflexivity.
Qed.

Lemma eqb_dquote (c : ascii) : Ascii.eqb c dquote = (byteZ c =? 34).
Proof. rewrite eqb_byteZ. reflexivity. Qed.

Lemma eqb_backslash (c : ascii) : Ascii.eqb c backslash = (byteZ c =? 92).
Proof. rewrite eqb_byteZ. reflexivity. Qed.

Lemma scanBody_inert (p rest : string) :
  allBytes inert p = true -> scanBody (p ++ rest) = scanBody rest.
Proof.
  induction p as [|c p IH]; [reflexivity|].
  cbn [allBytes append scanBody]. rewrite andb_true_iff. intros [Hc Hp].
  rewrite eqb_dquote, eqb_backslash. unfold inert in Hc.
  destruct (byteZ c =? 34); [discriminate|].
  destruct (byteZ c =? 92); [discriminate|]. auto.
Qed.

Lemma inert_notControl (p : string) :
  allBytes inert p = true -> allBytes notControl p = true.
Proof.
  apply allBytes_impl. intros c. unfold inert. rewrite !andb_true_iff. tauto.
Qed.

Lemma goodPiece_scan (p rest : string) :
  goodPiece p = true -> scanBody (p ++ rest) = scanBody rest.
Proof.
  unfold goodPiece. rewrite orb_true_iff. intros [H|H].
  - apply scanBody_inert, H.
  - destruct p as [|b [|c tail]]; try discriminate.
    rewrite !andb_true_iff in H. destruct H as [[Hb _] Ht].
    apply Ascii.eqb_eq in Hb. subst b.
    cbn [append scanBody]. change (Ascii.eqb backslash dquote) with false.
    change (Ascii.eqb backslash backslash) with true. cbv iota.
    apply scanBody_inert, Ht.
Qed.

Lemma goodPiece_notControl (p : string) :
  goodPiece p = true -> allBytes notControl p = true.
Proof.
  unfold goodPiece. rewrite orb_true_iff. intros [H|H].
  - apply inert_notControl, H.
  - destruct p as [|b [|c tail]]; try discriminate.
    rewrite !andb_true_iff in H. destruct H as [[Hb Hc] Ht].
    apply Ascii.eqb_eq in Hb. subst b.
    cbn [allBytes]. rewrite Hc, (inert_notControl _ Ht). reflexivity.
Qed.

Lemma invalid_byte_good (c : ascii) :
  goodPiece (String backslash
               (String "x" (String (strconv.hexDigit (Z.shiftr (byteZ c) 4))
                              (str1 (strconv.hexDigit (Z.land (byteZ c) 15)))))) = true.
Proof.
  unfold goodPiece, str1. cbn [allBytes]. rewrite !hexDigit_inert.
  rewrite orb_true_iff. right. reflexivity.
Qed.

Lemma quoteLoop_pieces (isPrintTable : Z -> bool) (fuel : nat) (s : string) :
  strconv.quoteLoop isPrintTable fuel s = EmptyString \/
  exists p s', goodPiece p = true /\
               strconv.quoteLoop isPrintTable fuel s =
               p ++ strconv.quoteLoop isPrintTable (pred fuel) s'.
Proof.
  destruct fuel as [|f]; [left; reflexivity|].
  destruct s as [|c t]; [left; reflexivity|].
  right. cbn [strconv.quoteLoop pred].
  destruct (if strconv.RuneSelf <=? byteZ c
            then strconv.DecodeRuneInString (String c t)
            else (byteZ c, 1%nat)) as [r width].
  destruct ((width =? 1)%nat && (r =? strconv.RuneError)).
  - eexists _, _. split; [apply invalid_byte_good | reflexivity].
  - eexists _, _. split; [apply escapedRune_good | reflexivity].
Qed.

Lemma quoteLoop_scan (isPrintTable : Z -> bool) (fuel : nat) (s rest : string) :
  scanBody (strconv.quoteLoop isPrintTable fuel s ++ String dquote rest) = Some rest.
Proof.
  revert s. induction fuel as [|f IH]; intros s.
  - reflexivity.
  - destruct (quoteLoop_pieces isPrintTable (S f) s) as [E|[p [s' [Hp E]]]]; rewrite E.
    + reflexivity.
    + rewrite append_assoc, goodPiece_scan by exact Hp. apply IH.
Qed.

Lemma quoteLoop_notControl (isPrintTable : Z -> bool) (fuel : nat) (s : string) :
  allBytes notControl (strconv.quoteLoop isPrintTable fuel s) = true.
Proof.
  revert s. induction fuel as [|f IH]; intros s.
  - reflexivity.
  - destruct (quoteLoop_pieces isPrintTable (S f) s) as [E|[p [s' [Hp E]]]]; rewrite E.
    + reflexivity.
    + rewrite allBytes_app, (goodPiece_notControl _ Hp). apply IH.
Qed.

Lemma Quote_scan (isPrintTable : Z -> bool) (s rest : string) :
  scanQuoted (strconv.Quote isPrintTable s ++ rest) = Some rest.
Proof.
  unfold strconv.Quote, str1. cbn [append scanQuoted].
  change (Ascii.eqb dquote dquote) with true. cbv iota.
  rewrite append_assoc. apply quoteLoop_scan.
Qed.

Lemma Quote_notControl (isPrintTable : Z -> bool) (s : string) :
  allBytes notControl (strconv.Quote isPrintTable s) = true.
Proof.
  unfold strconv.Quote. cbn [allBytes].
  rewrite allBytes_app, quoteLoop_notControl. reflexivity.
Qed.

(** [Quote] begins and ends with a quote. *)
Lemma Quote_delimited (isPrintTable : Z -> bool) (s : string) :
  exists body, strconv.Quote isPrintTable s = String dquote (body ++ str1 dquote).
Proof. eexists. reflexivity. Qed.

(** ** The loops run to their end *)

Lemma utoaLoop_value (fuel : nat) (n : Z) (acc : string) :
  0 <= n < 10 ^ Z.of_nat fuel ->
  exists k, 0 <= k /\
    forall a, decValue a (strconv.utoaLoop fuel n acc) = decValue (a * 10 ^ k + n) acc.
Proof.
  revert n acc. induction fuel as [|f IH]; intros n acc Hn.
  - exists 0. split; [lia|]. intros a. cbn [strconv.utoaLoop].
    change (10 ^ Z.of_nat 0) with 1 in Hn. f_equal. lia.
  - cbn [strconv.utoaLoop].
    assert (Hd : byteZ (strconv.digitChar (n mod 10)) - 48 = n mod 10).
    { unfold strconv.digitChar. rewrite byteZ_byte_of_Z.
      pose proof (Z.mod_pos_bound n 10 ltac:(lia)). rewrite Z.mod_small; lia. }
    destruct (n <? 10) eqn:E.
    + exists 1. split; [lia|]. intros a. cbn [decValue]. rewrite Hd.
      rewrite Z.mod_small by lia. f_equal. lia.
    + destruct (IH (n / 10) (String (strconv.digitChar (n mod 10)) acc)) as [k [Hk Hv]].
      { rewrite Nat2Z.inj_succ, Z.pow_succ_r in Hn by lia.
        split; [apply Z.div_pos; lia | apply Z.div_lt_upper_bound; lia]. }
      exists (k + 1). split; [lia|]. intros a. rewrite Hv. cbn [decValue]. rewrite Hd.
      f_equal. rewrite Z.pow_add_r by lia.
      pose proof (Z.div_mod n 10 ltac:(lia)). lia.
Qed.

(** The digits [%d] prints stand for the number. *)
Lemma utoa_value (n : Z) : 0 <= n -> decValue 0 (strconv.utoa n) = n.
Proof.
  intros Hn. unfold strconv.utoa.
  destruct (utoaLoop_value (S (Z.to_nat (Z.log2 n))) n EmptyString) as [k [Hk Hv]].
  - split; [assumption|].
    rewrite Nat2Z.inj_succ, Z2Nat.id by apply Z.log2_nonneg.
    destruct (Z.eq_dec n 0) as [->|Hne]; [reflexivity|].
    pose proof (Z.log2_spec n ltac:(lia)) as [_ Hlt].
    assert (2 ^ Z.succ (Z.log2 n) <= 10 ^ Z.succ (Z.log2 n)).
    { apply Z.pow_le_mono_l. lia. }
    lia.
  - rewrite Hv. cbn [decValue]. lia.
Qed.

Lemma drop_length (n : nat) (s : string) :
  (String.length (drop n s) <= String.length s)%nat.
Proof.
  revert s. induction n as [|n IH]; intros s; [cbn; lia|].
  destruct s as [|c t]; cbn [drop String.length]; [lia|].
  specialize (IH t). lia.
Qed.

Lemma DecodeRuneInString_width (c : ascii) (t : string) :
  (1 <= snd (strconv.DecodeRuneInString (String c t)))%nat.
Proof.
  unfold strconv.DecodeRuneInString.
  destruct (strconv.acceptRange (byteZ c)) as [lo hi].
  repeat match goal with
         | |- context [if ?b then _ else _] => destruct b
         | |- context [match ?s with EmptyString => _ | String _ _ => _ end] => destruct s
         end; cbn [snd]; lia.
Qed.

(** The fuel of the quoting loop, the length of the string, is enough:
    more fuel changes nothing. *)
Lemma quoteLoop_fuel (isPrintTable : Z -> bool) (f1 f2 : nat) (s : string) :
  (String.length s <= f1)%nat -> (String.length s <= f2)%nat ->
  strconv.quoteLoop isPrintTable f1 s = strconv.quoteLoop isPrintTable f2 s.
Proof.
  revert f2 s. induction f1 as [|f1 IH]; intros f2 s H1 H2.
  - destruct s; [|cbn in H1; lia]. destruct f2; reflexivity.
  - destruct s as [|c t]; [destruct f2; reflexivity|].
    destruct f2 as [|f2]; [cbn in H2; lia|].
    cbn [strconv.quoteLoop].
    pose proof (DecodeRuneInString_width c t) as Hw.
    destruct (if strconv.RuneSelf <=? byteZ c
              then strconv.DecodeRuneInString (String c t)
              else (byteZ c, 1%nat)) as [r width] eqn:E.
    assert (Hwidth : (1 <= width)%nat).
    { destruct (strconv.RuneSelf <=? byteZ c).
      - rewrite E in Hw. exact Hw.
      - inversion E. lia. }
    f_equal. destruct width as [|w']; [lia|]. cbn [drop].
    pose proof (drop_length w' t). cbn [String.length] in H1, H2.
    apply IH; lia.
Qed.

(** ** The remote address *)

Lemma strings_Split_nonempty (s : string) (sep : ascii) : strings_Split s sep <> [].
Proof.
  destruct s as [|c t]; cbn [strings_Split]; [discriminate|].
  destruct (Ascii.eqb c sep); [discriminate|].
  destruct (strings_Split t sep); discriminate.
Qed.

(** The first piece of the split is the text before the first colon. *)
Lemma remoteHost_cons (c : ascii) (t : string) :
  remoteHost (String c t) =
  if Ascii.eqb c ":" then EmptyString else String c (remoteHost t).
Proof.
  unfold remoteHost. cbn [strings_Split].
  destruct (Ascii.eqb c ":"); [reflexivity|].
  pose proof (strings_Split_nonempty t ":") as Hne.
  destruct (strings_Split t ":"); [contradiction|reflexivity].
Qed.

Lemma remoteHost_host_port (host port : string) :
  countByte ":" host = 0%nat -> remoteHost (host ++ String ":" port) = host.
Proof.
  induction host as [|c h IH]; intros Hc.
  - cbn [append]. rewrite remoteHost_cons. reflexivity.
  - cbn [append]. rewrite remoteHost_cons. cbn [countByte] in Hc.
    rewrite Ascii.eqb_sym. destruct (Ascii.eqb ":" c); [discriminate|].
    rewrite IH by exact Hc. reflexivity.
Qed.

Lemma stripTrailingPort_host_port (host port : string) :
  countByte ":" port = 0%nat -> stripTrailingPort (host ++ String ":" port) = host.
Proof.
  intros Hp. induction host as [|c h IH].
  - cbn [append stripTrailingPort]. rewrite Hp. reflexivity.
  - cbn [append stripTrailingPort]. rewrite countByte_app. cbn [countByte].
    change (Ascii.eqb ":" ":") with true.
    match goal with
    | |- (if ?b then _ else _) = _ => destruct b eqn:E
    end.
    + apply Nat.eqb_eq in E. lia.
    + rewrite IH. reflexivity.
Qed.

(** ** float64: the conversions and the quotient stay finite *)

























(** ** The verb [%.2f] *)






Section Sentinel.

Variable isPrintTable : Z -> bool.
Variable clock : nat -> time_Time.
Variable res : ResponseWriter.
Variable req : Request.

Lemma recordOf_sentinel (w : World) (st d b : Z) (m : string) :
  sentinelRecord isPrintTable req (recordOf isPrintTable clock req w st d b "-" m).
Proof.
  exists (time.Format_RFC3339 (clock (clockReads w))), st, (time.Milliseconds d), b, m.
  reflexivity.
Qed.

Lemma runHandler_sentinel (base : list string) (h : Handler) (w : World) :
  noDirectLog h ->
  (exists recs, logWriter w = (base ++ recs)%list /\
                Forall (sentinelRecord isPrintTable req) recs) ->
  exists recs,
    logWriter (snd (runHandler isPrintTable clock res req h w)) = (base ++ recs)%list /\
    Forall (sentinelRecord isPrintTable req) recs.
Proof.
  revert w. induction h as [|v|op k IH]; intros w Hno Hinv.
  - exact Hinv.
  - exact Hinv.
  - destruct Hno as [Hop Hk].
    cbn [runHandler]. unfold bind.
    assert (Hstep : exists recs,
               logWriter (snd (runOp isPrintTable clock res req op w)) = (base ++ recs)%list /\
               Forall (sentinelRecord isPrintTable req) recs).
    { destruct Hinv as [recs [Hl Hall]].
      destruct (runOp_step isPrintTable clock res req op w)
        as [_ [[Hlog _]|[_ [_ [st [d [b [r [m [Hlog Hr]]]]]]]]]].
      - exists recs. rewrite Hlog. auto.
      - exists (recs ++ [recordOf isPrintTable clock req w st d b r m])%list.
        rewrite Hlog, Hl, app_assoc. split; [reflexivity|].
        apply Forall_app. split; [exact Hall|].
        constructor; [|constructor].
        assert (r = "-") as -> by (destruct op; solve [exact Hr | contradiction]).
        apply recordOf_sentinel. }
    destruct (runOp isPrintTable clock res req op w) as [[r|v] w'].
    + apply IH; [apply Hk | exact Hstep].
    + exact Hstep.
Qed.

End Sentinel.

(** ** The request logger and the observing responder *)

Section Claims.

Variable isPrintTable : Z -> bool.
Variable clock : nat -> time_Time.
Variable res : ResponseWriter.
Variable req : Request.

(** C1. For every request handled by [LogMiddleware] at most one record is
    written to the log writer, however often [Log] and [LogError] are
    called on the request's [LoggingResponseWriter]: a call of [Log] with
    the flag [wrote] down raises the flag and writes one record, a call
    with the flag up changes nothing; at every point of the downstream
    handler the log has grown by one record if the flag is up and by none
    if it is down; and when [ServeHTTP] is over the log has grown by at
    most one record. *)
Theorem LogMiddleware_logs_at_most_once :
  (forall (s d b : Z) (r m : string) (w : World),
      Log isPrintTable clock req s d b r m w =
      (Returned tt,
       if wrote (lres w) then w
       else mkWorld (set_wrote true (lres w)) (sinkCalls w)
                    (logWriter w ++ [recordOf isPrintTable clock req w s d b r m])%list
                    (S (clockReads w)))) /\
  (forall (h : Handler) (w0 : World),
      let w := snd (runHandler isPrintTable clock res req h (atStart w0)) in
      exists recs, logWriter w = (logWriter w0 ++ recs)%list /\
                   List.length recs = (if wrote (lres w) then 1 else 0)%nat) /\
  (forall (next : Handler) (w0 : World),
      exists recs,
        logWriter (snd (ServeHTTP isPrintTable clock res req next w0)) =
          (logWriter w0 ++ recs)%list /\
        (List.length recs <= 1)%nat).
Proof.
  split; [|split].
  - intros. apply Log_unfold.
  - intros h w0. apply runHandler_logInv, atStart_logInv.
  - intros next w0. rewrite ServeHTTP_unfold. cbv zeta. cbn [snd].
    destruct (runHandler_logInv isPrintTable clock res req (logWriter w0) next
                (atStart w0) (atStart_logInv w0)) as [recs [Hl Hn]].
    rewrite finalLog_unfold, Log_unfold. unfold tick. cbn [snd lres logWriter sinkCalls clockReads].
    destruct (wrote (lres (snd (runHandler isPrintTable clock res req next (atStart w0))))).
    + exists recs. cbn [logWriter]. rewrite Hl, Hn. auto.
    + destruct recs; [|discriminate]. cbn [logWriter]. rewrite Hl, app_nil_r.
      eexists. split; [reflexivity|]. cbn. lia.
Qed.

(** C2. Whatever the downstream handler does and however it ends, by a
    return or by a panic, [ServeHTTP] ends the same way after one run of
    the finalizing call: the world it leaves is the world the handler
    left, changed by one call of [Log] with the status, the elapsed time,
    the sent bytes and the compression ratio of that moment.  The clock is
    read once for the elapsed time; the flag is up; the request has
    exactly one record; and when the handler has not logged, this record
    is the one of the finalizing call. *)
Theorem ServeHTTP_finalizes (next : Handler) (w0 : World) :
  let start := clock (clockReads w0) in
  let o := fst (runHandler isPrintTable clock res req next (atStart w0)) in
  let w1 := snd (runHandler isPrintTable clock res req next (atStart w0)) in
  let elapsed := time.Sub (clock (clockReads w1)) start in
  let w2 := snd (ServeHTTP isPrintTable clock res req next w0) in
  ServeHTTP isPrintTable clock res req next w0 =
    (o, snd (Log isPrintTable clock req (status (lres w1)) elapsed
                 (sentBytes (lres w1)) (CompressionRatioOf (lres w1)) "" (tick w1))) /\
  wrote (lres w2) = true /\
  (exists rec, logWriter w2 = (logWriter w0 ++ [rec])%list) /\
  logWriter w2 =
    (logWriter w1 ++
     if wrote (lres w1) then []
     else [recordOf isPrintTable clock req (tick w1) (status (lres w1)) elapsed
                    (sentBytes (lres w1)) (CompressionRatioOf (lres w1)) ""])%list /\
  clockReads w2 = (clockReads w1 + if wrote (lres w1) then 1 else 2)%nat /\
  sinkCalls w2 = sinkCalls w1.
Proof.
  cbv zeta. rewrite ServeHTTP_unfold. cbv zeta. cbn [snd].
  rewrite finalLog_unfold.
  destruct (runHandler_logInv isPrintTable clock res req (logWriter w0) next
              (atStart w0) (atStart_logInv w0)) as [recs [Hl Hn]].
  split; [reflexivity|].
  rewrite Log_unfold. unfold tick. cbn [snd lres logWriter sinkCalls clockReads].
  destruct (wrote (lres (snd (runHandler isPrintTable clock res req next (atStart w0)))))
    eqn:Hw; cbn [lres logWriter clockReads sinkCalls set_wrote wrote].
  - repeat split; try assumption.
    + destruct recs as [|rec [|]]; try discriminate. exists rec. exact Hl.
    + rewrite app_nil_r. reflexivity.
    + lia.
  - repeat split.
    + destruct recs; [|discriminate]. rewrite Hl, app_nil_r. eexists. reflexivity.
    + lia.
Qed.

(** C3. A call of [Write] on a struct whose status is 0 records the
    status 200 before the bytes go to the real sink: when the sink
    answers [(n, err)], the call returns [(n, err)] as it is, with an
    error or without, and [sentBytes] has grown by [n] (the sum is the sum
    of Go's 64-bit integers, the exact sum when it is in range); when the
    sink panics, the status is 200 already and no byte has been
    counted. *)
Theorem Write_defaults_status_then_counts (b : string) (w : World) :
  status (lres w) = 0 ->
  match rwWrite res (sinkCalls w) b with
  | Returned (n, err) =>
      Write res b w =
      (Returned (n, err),
       mkWorld (mkLRW StatusOK (wroteBytes (lres w))
                      (wrap64 (sentBytes (lres w) + n)) (wrote (lres w)))
               (sinkCalls w ++ [CallWrite b])%list (logWriter w) (clockReads w)) /\
      (in_int (sentBytes (lres w) + n) ->
       wrap64 (sentBytes (lres w) + n) = sentBytes (lres w) + n)
  | Panicked v =>
      Write res b w =
      (Panicked v,
       mkWorld (mkLRW StatusOK (wroteBytes (lres w)) (sentBytes (lres w)) (wrote (lres w)))
               (sinkCalls w ++ [CallWrite b])%list (logWriter w) (clockReads w))
  end.
Proof.
  intros Hs. rewrite Write_unfold. unfold defaulted. rewrite Hs. cbn [Z.eqb].
  destruct (rwWrite res (sinkCalls w) b) as [[n err]|v]; [split|];
    solve [reflexivity | apply wrap64_in_int].
Qed.

(** C5. The message [LogError] uses is the message of the root cause of
    the error: the last error of the chain that [errors.Unwrap] walks,
    the one for which [errors.Unwrap] gives nil.  This message, and not
    the text of an outer error, is the message field of the record that
    is logged and the body of the response that is sent to the client. *)
Theorem LogError_uses_root_cause (s : Z) (err : error) (w : World) :
  let root := rootCause err in
  let w' := snd (LogError isPrintTable clock res req s err w) in
  (forall e, unwrapChain e =
             e :: match errors_Unwrap e with Some c => unwrapChain c | None => [] end) /\
  root = last (unwrapChain err) err /\
  errors_Unwrap root = None /\
  unwrapLoop err (Error err) = Error root /\
  logWriter w' =
    (logWriter w ++
     if wrote (lres w) then []
     else [logLine (time.Format_RFC3339 (clock (clockReads w)))
                   (remoteHost (RemoteAddr req)) (Method req) (URL req) s 0 0 "-"
                   (Quote isPrintTable (UserAgent req))
                   (Quote isPrintTable (Error root))])%list /\
  sinkCalls w' =
    (sinkCalls w ++
     if sentBytes (lres w) =? 0
     then errorResponse res (sinkCalls w) (Quote isPrintTable (Error root)) s
     else [])%list.
Proof.
  cbv zeta. repeat split.
  - intros e. destruct e; reflexivity.
  - apply rootCause_is_root.
  - apply unwrapLoop_rootCause.
  - rewrite LogError_unfold. cbv zeta. rewrite Log_unfold. cbn [snd].
    destruct (sentBytes (lres w) =? 0); destruct (wrote (lres w));
      cbn [snd logWriter]; rewrite ?app_nil_r; reflexivity.
  - rewrite LogError_unfold. cbv zeta.
    destruct (sentBytes (lres w) =? 0); cbn [snd sinkCalls];
      rewrite ?app_nil_r; reflexivity.
Qed.

(** C6. Every call of [LogError] calls [Log] with the status, a zero
    duration, zero bytes and the sentinel ratio, and then records the
    status.  It calls [http.Error] on the real sink, with the status and
    the quoted message of the root cause, if and only if [sentBytes] is 0
    when it is called; otherwise the real sink receives nothing. *)
Theorem LogError_reports (s : Z) (err : error) (w : World) :
  let msg := Error (rootCause err) in
  let w' := snd (LogError isPrintTable clock res req s err w) in
  let wlog := snd (Log isPrintTable clock req s 0 0 "-" msg w) in
  logWriter w' = logWriter wlog /\
  logWriter w' =
    (logWriter w ++
     if wrote (lres w) then []
     else [logLine (time.Format_RFC3339 (clock (clockReads w)))
                   (remoteHost (RemoteAddr req)) (Method req) (URL req) s 0 0 "-"
                   (Quote isPrintTable (UserAgent req))
                   (Quote isPrintTable msg)])%list /\
  lres w' = mkLRW s (wroteBytes (lres w)) (sentBytes (lres w)) true /\
  sinkCalls w' =
    (sinkCalls w ++
     if sentBytes (lres w) =? 0
     then errorResponse res (sinkCalls w) (Quote isPrintTable msg) s
     else [])%list /\
  (sinkCalls w' <> sinkCalls w <-> sentBytes (lres w) = 0) /\
  (In (CallWriteHeader s) (skipn (List.length (sinkCalls w)) (sinkCalls w')) <->
   sentBytes (lres w) = 0).
Proof.
  cbv zeta. rewrite LogError_unfold. cbv zeta. rewrite Log_unfold. cbn [snd].
  assert (Hne : forall body, errorResponse res (sinkCalls w) body s <> []).
  { intros body. unfold errorResponse, errorHeaders.
    destruct (rwWriteHeader res _ s); discriminate. }
  assert (Hin : forall body, In (CallWriteHeader s) (errorResponse res (sinkCalls w) body s)).
  { intros body. unfold errorResponse, errorHeaders.
    destruct (rwWriteHeader res _ s); cbn; auto. }
  destruct (sentBytes (lres w) =? 0) eqn:Hsent;
    [apply Z.eqb_eq in Hsent | apply Z.eqb_neq in Hsent];
    destruct (wrote (lres w)) eqn:Hw;
    cbn [snd logWriter lres sinkCalls set_status set_wrote wroteBytes sentBytes wrote];
    rewrite ?app_nil_r;
    (repeat split; try reflexivity; try tauto; try congruence).
  all: try (intros _ Heq;
            apply (f_equal (@List.length SinkCall)) in Heq;
            rewrite length_app in Heq;
            specialize (Hne (Quote isPrintTable (Error (rootCause err))));
            destruct (errorResponse res (sinkCalls w) (Quote isPrintTable (Error (rootCause err))) s);
            [congruence | cbn in Heq; lia]).
  all: try (intros _; rewrite skipn_app, skipn_all, Nat.sub_diag; cbn [skipn app]; apply Hin).
  all: try (rewrite skipn_all; cbn; tauto).
  all: unfold set_status; cbn; rewrite Hw; reflexivity.
Qed.

(** C7. When the real sink does not implement [http.Hijacker], [Hijack]
    returns nil for the connection and for the reader-writer, with the
    error "http.Hijacker not implemented", and the sink is not called;
    when the sink implements it, [Hijack] calls it and returns what it
    returns. *)
Theorem Hijack_capability (w : World) :
  (rwHijacker res = None ->
   Hijack res w =
   (Returned (None, None, Some (errors_New "http.Hijacker not implemented")), w)) /\
  (forall hj, rwHijacker res = Some hj ->
   Hijack res w =
   (hj (sinkCalls w),
    mkWorld (lres w) (sinkCalls w ++ [CallHijack])%list (logWriter w) (clockReads w))).
Proof.
  rewrite Hijack_unfold. split.
  - intros ->. reflexivity.
  - intros hj ->. reflexivity.
Qed.

(** C10. No operation of the struct changes [wroteBytes]: in every state
    a handler can reach from a new struct the counter is 0 and
    [CompressionRatio] returns the sentinel.  So the ratio that the
    finalizing call of [ServeHTTP] passes to [Log] is the sentinel, and
    the ratio field of the record of the request is the sentinel, unless
    the handler has called [Log] itself with another ratio. *)
Theorem wroteBytes_stays_zero :
  (forall (h : Handler) (w0 : World),
      let w := snd (runHandler isPrintTable clock res req h (fresh w0)) in
      wroteBytes (lres w) = 0 /\
      CompressionRatioOf (lres w) = "-" /\
      fst (CompressionRatio w) = Returned "-") /\
  (forall (next : Handler) (w0 : World),
      let w1 := snd (runHandler isPrintTable clock res req next (atStart w0)) in
      logWriter (snd (ServeHTTP isPrintTable clock res req next w0)) =
      (logWriter w1 ++
       if wrote (lres w1) then []
       else [recordOf isPrintTable clock req (tick w1) (status (lres w1))
                      (time.Sub (clock (clockReads w1)) (clock (clockReads w0)))
                      (sentBytes (lres w1)) "-" ""])%list) /\
  (forall (next : Handler) (w0 : World),
      noDirectLog next ->
      exists rec,
        logWriter (snd (ServeHTTP isPrintTable clock res req next w0)) =
          (logWriter w0 ++ [rec])%list /\
        sentinelRecord isPrintTable req rec).
Proof.
  assert (Hzero : forall l, wroteBytes l = 0 -> CompressionRatioOf l = "-").
  { intros l Hl. unfold CompressionRatioOf. rewrite Hl. cbn [Z.eqb].
    rewrite orb_true_r. reflexivity. }
  split; [|split].
  - intros h w0. cbv zeta.
    pose proof (runHandler_wroteBytes isPrintTable clock res req h (fresh w0)) as Hwb.
    cbn in Hwb. repeat split.
    + exact Hwb.
    + apply Hzero, Hwb.
    + unfold CompressionRatio, bind, getLres, ret. cbn [fst].
      rewrite (Hzero _ Hwb). reflexivity.
  - intros next w0. cbv zeta. rewrite ServeHTTP_unfold. cbv zeta. cbn [snd].
    rewrite finalLog_unfold, Log_unfold. unfold tick. cbn [snd lres logWriter sinkCalls clockReads].
    pose proof (runHandler_wroteBytes isPrintTable clock res req next (atStart w0)) as Hwb.
    cbn in Hwb. rewrite (Hzero _ Hwb).
    destruct (wrote (lres (snd (runHandler isPrintTable clock res req next (atStart w0)))));
      cbn [logWriter]; rewrite ?app_nil_r; reflexivity.
  - intros next w0 Hno. rewrite ServeHTTP_unfold. cbv zeta. cbn [snd].
    rewrite finalLog_unfold, Log_unfold. unfold tick. cbn [snd lres logWriter sinkCalls clockReads].
    pose proof (runHandler_wroteBytes isPrintTable clock res req next (atStart w0)) as Hwb.
    cbn in Hwb. rewrite (Hzero _ Hwb).
    destruct (runHandler_logInv isPrintTable clock res req (logWriter w0) next
                (atStart w0) (atStart_logInv w0)) as [recs [Hl Hn]].
    destruct (runHandler_sentinel isPrintTable clock res req (logWriter w0) next
                (atStart w0) Hno) as [recs' [Hl' Hall]].
    { exists []. cbn. rewrite app_nil_r. auto. }
    rewrite Hl in Hl'. apply app_inv_head in Hl'. subst recs'.
    destruct (wrote (lres (snd (runHandler isPrintTable clock res req next (atStart w0))))).
    + destruct recs as [|rec [|]]; try discriminate.
      exists rec. split; [exact Hl|]. inversion Hall; assumption.
    + destruct recs; [|discriminate]. cbn [logWriter]. rewrite Hl, app_nil_r.
      eexists. split; [reflexivity|]. apply recordOf_sentinel.
Qed.

End Claims.

(** ** The compression ratio, the remote address and the record *)


(** C8. The remote address of an IPv6 peer, "[::1]:8080", is split at its
    first colon: the record carries "[" where the host-only form of the
    address is "[::1]". *)
Theorem remoteHost_IPv6_is_cut :
  remoteHost (RemoteAddr Sample.req6) = "[" /\
  stripTrailingPort (RemoteAddr Sample.req6) = "[::1]" /\
  logWriter (snd (Log Sample.allPrintable Sample.clock Sample.req6 200 0 0 "-" ""
                      Sample.world0)) =
  [logLine "2023-07-04T09:05:00Z" "[" "GET" "/x" 200 0 0 "-"
           (Quote Sample.allPrintable "test-agent") (Quote Sample.allPrintable "")].
Proof. repeat split. Qed.


(** ** Concrete runs *)



Lemma Write_defaults_status_then_counts_witness :
  status (lres Sample.world0) = 0 /\
  Write Sample.plainSink "abc" Sample.world0 =
  (Returned (3, None),
   mkWorld (mkLRW 200 0 3 false) [CallWrite "abc"] [] 0).
Proof.
  split; [reflexivity|].
  exact (proj1 (Write_defaults_status_then_counts Sample.plainSink "abc"
                  Sample.world0 eq_refl)).
Defined.

Lemma Hijack_capability_witness :
  Hijack Sample.plainSink Sample.world0 =
    (Returned (None, None, Some (errors_New "http.Hijacker not implemented")),
     Sample.world0) /\
  Hijack Sample.hijackableSink Sample.world0 =
    (Returned (Some 1%nat, Some 2%nat, None),
     mkWorld NewLoggingResponseWriter [CallHijack] [] 0).
Proof.
  split.
  - apply (proj1 (Hijack_capability Sample.plainSink Sample.world0)). reflexivity.
  - apply (proj2 (Hijack_capability Sample.hijackableSink Sample.world0)
                 (fun _ => Returned (Some 1%nat, Some 2%nat, None))).
    reflexivity.
Defined.


Lemma wroteBytes_stays_zero_witness :
  noDirectLog Sample.writes10 /\
  exists rec,
    logWriter (snd (ServeHTTP Sample.allPrintable Sample.clock Sample.plainSink
                              Sample.req Sample.writes10 Sample.world0)) =
      ([] ++ [rec])%list /\
    sentinelRecord Sample.allPrintable Sample.req rec.
Proof.
  assert (H : noDirectLog Sample.writes10) by (simpl; tauto).
  split; [exact H|].
  exact (proj2 (proj2 (wroteBytes_stays_zero Sample.allPrintable Sample.clock
                         Sample.plainSink Sample.req))
               Sample.writes10 Sample.world0 H).
Defined.

(** The sink panics in [Write]: the status is 200 already, no byte is
    counted, and [ServeHTTP] logs that state before the panic goes on. *)
Example Write_panics_after_default :
  ServeHTTP Sample.allPrintable Sample.clock Sample.brokenSink Sample.req
            (HCall (OpWrite "abc") (fun _ => HReturn)) Sample.world0 =
  (Panicked "connection reset",
   mkWorld (mkLRW 200 0 0 true) [CallWrite "abc"]
           [logLine "2023-07-04T09:05:02Z" "10.0.0.7" "GET" "/x" 200 1 0 "-"
                    (Quote Sample.allPrintable "test-agent")
                    (Quote Sample.allPrintable "")]
           3).
Proof. reflexivity. Qed.

(** An error reported twice and a later [Log], then a panic: one record,
    that of the first report, with the message of the root cause; one
    error response for each report, since no byte was sent. *)
Example failsTwice_logs_once :
  let r := ServeHTTP Sample.allPrintable Sample.clock Sample.plainSink Sample.req
                     Sample.failsTwice Sample.world0 in
  fst r = Panicked "boom" /\
  logWriter (snd r) =
    [logLine "2023-07-04T09:05:01Z" "10.0.0.7" "GET" "/x" 503 0 0 "-"
             (Quote Sample.allPrintable "test-agent")
             (Quote Sample.allPrintable "ENOSPC")] /\
  lres (snd r) = mkLRW 500 0 0 true /\
  List.length (sinkCalls (snd r)) = 8%nat.
Proof. repeat split. Qed.

(** After ten bytes were sent, an error is logged and not sent. *)
Example LogError_after_bytes :
  let h := HCall (OpWrite "0123456789") (fun _ =>
           HCall (OpLogError 503 Sample.enospc) (fun _ => HReturn)) in
  let r := ServeHTTP Sample.allPrintable Sample.clock Sample.plainSink Sample.req
                     h Sample.world0 in
  sinkCalls (snd r) = [CallWrite "0123456789"] /\
  logWriter (snd r) =
    [logLine "2023-07-04T09:05:01Z" "10.0.0.7" "GET" "/x" 503 0 0 "-"
             (Quote Sample.allPrintable "test-agent")
             (Quote Sample.allPrintable "ENOSPC")] /\
  status (lres (snd r)) = 503.
Proof. repeat split. Qed.

(** A handler that writes nothing: the status 0 is logged. *)
Example silent_handler_logs_zero :
  logWriter (snd (ServeHTTP Sample.allPrintable Sample.clock Sample.plainSink
                            Sample.req HReturn Sample.world0)) =
  [logLine "2023-07-04T09:05:02Z" "10.0.0.7" "GET" "/x" 0 1 0 "-"
           (Quote Sample.allPrintable "test-agent") (Quote Sample.allPrintable "")].
Proof. reflexivity. Qed.

(** End to end: a GET of /x by test-agent, status 200 and ten bytes. *)
Example writes10_record :
  logWriter (snd (ServeHTTP Sample.allPrintable Sample.clock Sample.plainSink
                            Sample.req Sample.writes10 Sample.world0)) =
  [logLine "2023-07-04T09:05:02Z" "10.0.0.7" "GET" "/x" 200 1 10 "-"
           (Quote Sample.allPrintable "test-agent") (Quote Sample.allPrintable "")] /\
  Quote Sample.allPrintable "" = String dquote (str1 dquote).
Proof. split; reflexivity. Qed.

(** ** What the operations leave alone *)

Ltac frame_solve :=
  cbn;
  repeat match goal with
         | |- _ /\ _ => split
         | |- _ -> _ => intro
         end;
  try reflexivity; try discriminate; try lia;
  try (destruct (lres _); reflexivity);
  try solve [eexists; reflexivity];
  try (exists []; rewrite app_nil_r; reflexivity).

Section Frames.

Variable isPrintTable : Z -> bool.
Variable clock : nat -> time_Time.
Variable res : ResponseWriter.
Variable req : Request.

Lemma errorResponse_shape (calls : list SinkCall) (body : string) (s : Z) :
  errorResponse res calls body s =
  (errorHeaders ++ CallWriteHeader s ::
   match rwWriteHeader res (calls ++ errorHeaders)%list s with
   | Returned _ => [CallWrite (body ++ str1 newline)]
   | Panicked _ => []
   end)%list.
Proof.
  unfold errorResponse. destruct (rwWriteHeader res _ s); reflexivity.
Qed.

(** One step: the calls on the sink and the clock readings only grow;
    [sentBytes] changes in [Write] only; a passive operation changes
    neither the struct nor the log. *)
Lemma runOp_effect (op : Op) (w : World) :
  let w' := snd (runOp isPrintTable clock res req op w) in
  (exists calls, sinkCalls w' = (sinkCalls w ++ calls)%list) /\
  (clockReads w <= clockReads w')%nat /\
  (notWrite op = true -> sentBytes (lres w') = sentBytes (lres w)) /\
  (isPassiveOp op = true -> lres w' = lres w /\ logWriter w' = logWriter w).
Proof.
  destruct op as [k v|s|b|s d b r m|s e| |]; cbn [runOp notWrite isPassiveOp]; unfold bind.
  - frame_solve.
  - rewrite WriteHeader_unfold.
    destruct (rwWriteHeader res (sinkCalls w) s); frame_solve.
  - rewrite Write_unfold.
    destruct (rwWrite res (sinkCalls w) b); frame_solve.
  - rewrite Log_unfold. cbn [snd ret].
    destruct (wrote (lres w)); frame_solve.
  - rewrite LogError_unfold. cbv zeta. rewrite Log_unfold. cbn [snd].
    destruct (sentBytes (lres w) =? 0);
      [destruct (errorOutcome res (sinkCalls w) _ s)|];
      destruct (wrote (lres w)); frame_solve.
  - rewrite Hijack_unfold.
    destruct (rwHijacker res) as [hj|]; [destruct (hj (sinkCalls w))|]; frame_solve.
  - frame_solve.
Qed.

End Frames.

Lemma wrap64_add_l (x y : Z) : wrap64 (wrap64 x + y) = wrap64 (x + y).
Proof.
  unfold wrap64.
  replace ((x + 2 ^ 63) mod 2 ^ 64 - 2 ^ 63 + y + 2 ^ 63)
    with ((x + 2 ^ 63) mod 2 ^ 64 + y) by lia.
  rewrite Z.add_mod_idemp_l by lia.
  replace (x + 2 ^ 63 + y) with (x + y + 2 ^ 63) by lia. reflexivity.
Qed.

Lemma acceptedBytes_app (res : ResponseWriter) (before a b : list SinkCall) :
  acceptedBytes res before (a ++ b) =
  acceptedBytes res before a + acceptedBytes res (before ++ a) b.
Proof.
  revert before. induction a as [|c a IH]; intros before.
  - cbn. rewrite app_nil_r. reflexivity.
  - cbn [app acceptedBytes]. rewrite IH, <- app_assoc. cbn [app]. lia.
Qed.

Section HandlerFrames.

Variable isPrintTable : Z -> bool.
Variable clock : nat -> time_Time.
Variable res : ResponseWriter.
Variable req : Request.

(** A handler only appends: to the calls on the sink, to the log (one
    record at most, none once the flag is up), to the clock readings. *)
Lemma runHandler_appends (h : Handler) (w : World) :
  let w' := snd (runHandler isPrintTable clock res req h w) in
  exists calls recs,
    sinkCalls w' = (sinkCalls w ++ calls)%list /\
    logWriter w' = (logWriter w ++ recs)%list /\
    (List.length recs <= 1)%nat /\
    (wrote (lres w) = true -> recs = [] /\ wrote (lres w') = true) /\
    (recs <> [] -> wrote (lres w') = true) /\
    (clockReads w <= clockReads w')%nat.
Proof.
  revert w. induction h as [|v|op k IH]; intros w; cbv zeta.
  - exists [], []. cbn. rewrite !app_nil_r. repeat split; auto; try congruence.
  - exists [], []. cbn. rewrite !app_nil_r. repeat split; auto; try congruence.
  - cbn [runHandler]. unfold bind.
    destruct (runOp_effect isPrintTable clock res req op w) as [[c1 Hc1] [Hk1 _]].
    destruct (runOp_step isPrintTable clock res req op w) as [_ Hstep].
    assert (Hone : exists r1,
               logWriter (snd (runOp isPrintTable clock res req op w)) =
                 (logWriter w ++ r1)%list /\
               (List.length r1 <= 1)%nat /\
               (wrote (lres w) = true ->
                r1 = [] /\ wrote (lres (snd (runOp isPrintTable clock res req op w))) = true) /\
               (r1 <> [] -> wrote (lres (snd (runOp isPrintTable clock res req op w))) = true)).
    { destruct Hstep as [[Hl Hw]|[Hf [Ht [st [d [b [r [m [Hl _]]]]]]]]].
      - exists []. rewrite app_nil_r, Hw. repeat split; auto; try congruence.
      - eexists [_]. split; [exact Hl|]. split; [cbn; lia|]. split; [congruence|auto]. }
    destruct Hone as [r1 [Hl1 [Hn1 [Hw1 Hne1]]]].
    destruct (runOp isPrintTable clock res req op w) as [[r|v] w1]; cbn [snd] in *.
    + destruct (IH r w1) as [c2 [r2 [Hc2 [Hl2 [Hn2 [Hw2 [Hne2 Hk2]]]]]]].
      exists (c1 ++ c2)%list, (r1 ++ r2)%list.
      rewrite Hc2, Hc1, Hl2, Hl1, !app_assoc.
      split; [reflexivity|]. split; [reflexivity|].
      destruct r1 as [|x r1'].
      * cbn [app]. split; [exact Hn2|]. split; [|split; [exact Hne2 | lia]].
        intros Hw. destruct (Hw1 Hw) as [_ Hw1']. exact (Hw2 Hw1').
      * assert (Hw1' : wrote (lres w1) = true) by (apply Hne1; discriminate).
        destruct (Hw2 Hw1') as [-> Hw'].
        rewrite app_nil_r. split; [exact Hn1|]. split; [|split; [auto | lia]].
        intros Hw. destruct (Hw1 Hw) as [E _]. discriminate E.
    + exists c1, r1. repeat split; auto.
      * apply Hw1; assumption.
      * apply Hw1; assumption.
Qed.

Lemma runHandler_passive (h : Handler) (w : World) :
  usesOnly isPassiveOp h ->
  lres (snd (runHandler isPrintTable clock res req h w)) = lres w /\
  logWriter (snd (runHandler isPrintTable clock res req h w)) = logWriter w.
Proof.
  revert w. induction h as [|v|op k IH]; intros w Hp.
  - auto.
  - auto.
  - destruct Hp as [Hop Hk]. cbn [runHandler]. unfold bind.
    destruct (runOp_effect isPrintTable clock res req op w) as [_ [_ [_ Hpas]]].
    destruct (Hpas Hop) as [Hl Hlog].
    destruct (runOp isPrintTable clock res req op w) as [[r|v] w1]; cbn [snd] in *.
    + destruct (IH r w1 (Hk r)) as [H1 H2]. rewrite H1, H2. auto.
    + auto.
Qed.

Lemma runOp_accepted (op : Op) (w : World) :
  notLogError op = true -> in_int (sentBytes (lres w)) ->
  let w' := snd (runOp isPrintTable clock res req op w) in
  exists calls,
    sinkCalls w' = (sinkCalls w ++ calls)%list /\
    sentBytes (lres w') =
      wrap64 (sentBytes (lres w) + acceptedBytes res (sinkCalls w) calls).
Proof.
  intros Hop Hin.
  assert (Hid : sentBytes (lres w) = wrap64 (sentBytes (lres w) + 0))
    by (rewrite Z.add_0_r, wrap64_in_int; auto).
  destruct op as [k v|s|b|s d b r m|s e| |]; try discriminate Hop;
    cbn [runOp]; unfold bind.
  - cbn. eexists [_]. split; [reflexivity|]. exact Hid.
  - rewrite WriteHeader_unfold.
    destruct (rwWriteHeader res (sinkCalls w) s); cbn;
      (eexists [_]; split; [reflexivity|]; exact Hid).
  - rewrite Write_unfold. unfold defaulted.
    destruct (rwWrite res (sinkCalls w) b) as [r|v] eqn:E;
      destruct (status (lres w) =? 0); cbn;
      (eexists [_]; split; [reflexivity|]); cbn [acceptedBytes]; rewrite E;
      rewrite ?Z.add_0_r; solve [reflexivity | rewrite Z.add_0_r in Hid; exact Hid].
  - rewrite Log_unfold. cbn [snd ret].
    destruct (wrote (lres w)); cbn;
      (exists []; rewrite app_nil_r; split; [reflexivity|]; exact Hid).
  - rewrite Hijack_unfold.
    destruct (rwHijacker res) as [hj|]; [destruct (hj (sinkCalls w))|]; cbn;
      solve [eexists [_]; split; [reflexivity|]; exact Hid
            |exists []; rewrite app_nil_r; split; [reflexivity|]; exact Hid].
  - cbn. exists []. rewrite app_nil_r. split; [reflexivity|]. exact Hid.
Qed.

Lemma runOp_direct (op : Op) (w w' : World) :
  isInterfaceOp op = true -> sinkCalls w = sinkCalls w' ->
  fst (runOp isPrintTable clock res req op w) = fst (runOpDirect res op w') /\
  sinkCalls (snd (runOp isPrintTable clock res req op w)) =
    sinkCalls (snd (runOpDirect res op w')) /\
  logWriter (snd (runOp isPrintTable clock res req op w)) = logWriter w.
Proof.
  intros Hop Hs.
  destruct op as [k v|s|b|s d b r m|s e| |]; try discriminate Hop;
    cbn [runOp runOpDirect]; unfold bind.
  - cbn. rewrite Hs. auto.
  - rewrite WriteHeader_unfold. unfold sink_WriteHeader, sinkCall. rewrite <- Hs.
    destruct (rwWriteHeader res (sinkCalls w) s); cbn; auto.
  - rewrite Write_unfold. unfold sink_Write, sinkCall. rewrite <- Hs.
    destruct (rwWrite res (sinkCalls w) b); cbn; auto.
Qed.

Lemma ServeHTTP_one_record (next : Handler) (w0 : World) :
  exists rec,
    logWriter (snd (ServeHTTP isPrintTable clock res req next w0)) =
      (logWriter w0 ++ [rec])%list /\
    wrote (lres (snd (ServeHTTP isPrintTable clock res req next w0))) = true.
Proof.
  rewrite ServeHTTP_unfold. cbv zeta. cbn [snd].
  destruct (runHandler_logInv isPrintTable clock res req (logWriter w0) next
              (atStart w0) (atStart_logInv w0)) as [recs [Hl Hn]].
  rewrite finalLog_unfold, Log_unfold. unfold tick.
  cbn [snd lres logWriter sinkCalls clockReads].
  destruct (wrote (lres (snd (runHandler isPrintTable clock res req next (atStart w0)))))
    eqn:Hw; cbn [lres logWriter set_wrote wrote].
  - destruct recs as [|rec [|]]; try discriminate. exists rec. auto.
  - destruct recs; [|discriminate]. rewrite Hl, app_nil_r. eexists. split; reflexivity.
Qed.

End HandlerFrames.

(** ** Further properties of the responder and of the logger *)

(** X1. The remote host [Log] prints is the longest prefix of the remote
    address that has no colon: the address is this prefix followed by
    nothing or by a colon and the rest. *)
Theorem remoteHost_colon_free_prefix (addr : string) :
  exists rest,
    addr = remoteHost addr ++ rest /\
    countByte ":" (remoteHost addr) = 0%nat /\
    (rest = EmptyString \/ exists t, rest = String ":" t).
Proof.
  induction addr as [|c t [rest [E [Hc Hr]]]].
  - exists EmptyString. repeat split. left. reflexivity.
  - rewrite remoteHost_cons. destruct (Ascii.eqb_spec c ":") as [->|Hne].
    + exists (String ":" t). repeat split. right. exists t. reflexivity.
    + exists rest. cbn [append countByte]. rewrite <- E.
      split; [reflexivity|]. split; [|exact Hr].
      rewrite Hc. destruct (Ascii.eqb_spec ":" c); [congruence|reflexivity].
Qed.

(** X2. For a host without colon, [Log] prints the host itself, whether
    the remote address is the host alone or the host, a colon and a
    port. *)
Theorem remoteHost_of_host_and_port (host : string) :
  countByte ":" host = 0%nat ->
  remoteHost host = host /\
  forall port, remoteHost (host ++ String ":" port) = host.
Proof.
  intros Hc. split; [|intros port; apply remoteHost_host_port, Hc].
  induction host as [|c h IH]; [reflexivity|].
  rewrite remoteHost_cons. cbn [countByte] in Hc.
  rewrite Ascii.eqb_sym. destruct (Ascii.eqb ":" c); [discriminate|].
  rewrite IH by exact Hc. reflexivity.
Qed.

Section Extras.

Variable isPrintTable : Z -> bool.
Variable clock : nat -> time_Time.
Variable res : ResponseWriter.
Variable req : Request.

(** X3. Wrapping an error changes nothing of what [LogError] does with
    it: the outcome, the record, the status and the response are those of
    the wrapped error. *)
Theorem LogError_sees_through_wrapping (s : Z) (m : string) (e : error) (w : World) :
  LogError isPrintTable clock res req s (Wrapped m e) w =
  LogError isPrintTable clock res req s e w.
Proof.
  rewrite !LogError_unfold, rootCause_Wrapped. reflexivity.
Qed.

(** X4. [Write] never leaves the status at 0 and never changes a status
    that is not 0, whether the sink returns or panics; it does not touch
    the log.  So after [WriteHeader(s)] and a [Write] the status is [s],
    or 200 when [s] is 0. *)
Theorem Write_status_rule (b : string) (w : World) :
  let w' := snd (Write res b w) in
  status (lres w') = (if status (lres w) =? 0 then StatusOK else status (lres w)) /\
  status (lres w') <> 0 /\
  wrote (lres w') = wrote (lres w) /\
  logWriter w' = logWriter w /\
  (forall s, rwWriteHeader res (sinkCalls w) s = Returned tt ->
     status (lres (snd (bind (WriteHeader res s) (fun _ => Write res b) w))) =
     if s =? 0 then StatusOK else s).
Proof.
  cbv zeta.
  assert (Hgen : forall w0,
             status (lres (snd (Write res b w0))) =
               (if status (lres w0) =? 0 then StatusOK else status (lres w0)) /\
             wrote (lres (snd (Write res b w0))) = wrote (lres w0) /\
             logWriter (snd (Write res b w0)) = logWriter w0).
  { intros w0. rewrite Write_unfold. unfold defaulted.
    destruct (rwWrite res (sinkCalls w0) b); destruct (status (lres w0) =? 0);
      cbn; auto. }
  destruct (Hgen w) as [H1 [H2 H3]].
  split; [exact H1|]. split; [|split; [exact H2|split; [exact H3|]]].
  - rewrite H1. destruct (status (lres w) =? 0) eqn:E.
    + discriminate.
    + apply Z.eqb_neq, E.
  - intros s Hs. unfold bind. rewrite WriteHeader_unfold, Hs.
    destruct (Hgen (mkWorld (set_status s (lres w))
                            (sinkCalls w ++ [CallWriteHeader s])%list
                            (logWriter w) (clockReads w))) as [E _].
    exact E.
Qed.

(** X5. As long as the handler does not call [LogError], [sentBytes] is
    the sum, in 64-bit arithmetic, of the byte counts the real sink
    reported for the [Write] calls it received: a [Write] that the sink
    answers with a panic counts for nothing, and no other call counts. *)
Theorem sentBytes_is_what_the_sink_accepted (h : Handler) (w : World) :
  usesOnly notLogError h -> in_int (sentBytes (lres w)) ->
  let w' := snd (runHandler isPrintTable clock res req h w) in
  exists calls,
    sinkCalls w' = (sinkCalls w ++ calls)%list /\
    sentBytes (lres w') =
      wrap64 (sentBytes (lres w) + acceptedBytes res (sinkCalls w) calls).
Proof.
  revert w. induction h as [|v|op k IH]; intros w Hu Hin; cbv zeta.
  - exists []. cbn. rewrite app_nil_r, Z.add_0_r, wrap64_in_int; auto.
  - exists []. cbn. rewrite app_nil_r, Z.add_0_r, wrap64_in_int; auto.
  - destruct Hu as [Hop Hk]. cbn [runHandler]. unfold bind.
    destruct (runOp_accepted isPrintTable clock res req op w Hop Hin) as [c1 [Hc1 Hs1]].
    destruct (runOp isPrintTable clock res req op w) as [[r|v] w1]; cbn [snd] in *.
    + destruct (IH r w1 (Hk r)) as [c2 [Hc2 Hs2]].
      { rewrite Hs1. apply wrap64_range. }
      exists (c1 ++ c2)%list. rewrite Hc2, Hc1, app_assoc. split; [reflexivity|].
      rewrite Hs2, Hs1, Hc1, wrap64_add_l, acceptedBytes_app. f_equal. lia.
    + exists c1. auto.
Qed.

(** X6. Only [Write] counts bytes: a handler that does not call [Write]
    leaves [sentBytes] as it is; the body of the error response that
    [LogError] writes on the real sink is not counted. *)
Theorem only_Write_counts (h : Handler) (w : World) :
  usesOnly notWrite h ->
  sentBytes (lres (snd (runHandler isPrintTable clock res req h w))) =
  sentBytes (lres w).
Proof.
  revert w. induction h as [|v|op k IH]; intros w Hu.
  - reflexivity.
  - reflexivity.
  - destruct Hu as [Hop Hk]. cbn [runHandler]. unfold bind.
    destruct (runOp_effect isPrintTable clock res req op w) as [_ [_ [Hs _]]].
    specialize (Hs Hop).
    destruct (runOp isPrintTable clock res req op w) as [[r|v] w1]; cbn [snd] in *.
    + rewrite (IH r w1 (Hk r)). exact Hs.
    + exact Hs.
Qed.


(** X8. Once a record is logged, nothing the handler does changes the
    log, and the flag stays up.  And whatever the flag, a handler only
    appends: the calls the sink has received and the records of the log
    are kept, and the log grows by one record at most. *)
Theorem logged_record_is_final (h : Handler) (w : World) :
  let w' := snd (runHandler isPrintTable clock res req h w) in
  (wrote (lres w) = true -> logWriter w' = logWriter w /\ wrote (lres w') = true) /\
  exists calls recs,
    sinkCalls w' = (sinkCalls w ++ calls)%list /\
    logWriter w' = (logWriter w ++ recs)%list /\
    (List.length recs <= 1)%nat.
Proof.
  cbv zeta.
  destruct (runHandler_appends isPrintTable clock res req h w)
    as [calls [recs [Hc [Hl [Hn [Hw _]]]]]].
  split.
  - intros H. destruct (Hw H) as [-> Hw']. rewrite Hl, app_nil_r. auto.
  - exists calls, recs. auto.
Qed.

(** X9. When the first thing the handler does is to report an error, the
    record of the request is the record of that report, with zero
    duration and zero bytes, whatever the handler does afterwards and
    however it ends. *)
Theorem first_report_is_the_record (s : Z) (e : error) (k : Reply -> Handler)
    (w0 : World) :
  logWriter (snd (ServeHTTP isPrintTable clock res req (HCall (OpLogError s e) k) w0)) =
  (logWriter w0 ++
   [recordOf isPrintTable clock req (atStart w0) s 0 0 "-" (Error (rootCause e))])%list.
Proof.
  assert (Hstep :
            wrote (lres (snd (runOp isPrintTable clock res req (OpLogError s e)
                                    (atStart w0)))) = true /\
            logWriter (snd (runOp isPrintTable clock res req (OpLogError s e)
                                  (atStart w0))) =
              (logWriter w0 ++
               [recordOf isPrintTable clock req (atStart w0) s 0 0 "-"
                         (Error (rootCause e))])%list).
  { cbn [runOp]. unfold bind. rewrite LogError_unfold. cbv zeta. rewrite Log_unfold.
    cbn [atStart lres NewLoggingResponseWriter sentBytes wrote Z.eqb snd sinkCalls
         logWriter clockReads].
    destruct (errorOutcome res (sinkCalls w0)
                (Quote isPrintTable (Error (rootCause e))) s); cbn; auto. }
  rewrite ServeHTTP_unfold. cbv zeta. cbn [snd].
  rewrite finalLog_unfold, Log_unfold. unfold tick.
  cbn [snd lres logWriter sinkCalls clockReads runHandler]. unfold bind.
  destruct (runOp isPrintTable clock res req (OpLogError s e) (atStart w0))
    as [[r|v] w1]; cbn [snd] in *; destruct Hstep as [Hw1 Hl1].
  - destruct (runHandler_appends isPrintTable clock res req (k r) w1)
      as [calls [recs [_ [Hl [_ [Hw _]]]]]].
    destruct (Hw Hw1) as [-> Hw']. rewrite Hw'. rewrite Hl, app_nil_r. exact Hl1.
  - rewrite Hw1. exact Hl1.
Qed.

(** X11. The body of the error response [LogError] sends is the quoted
    message of the root cause and a newline: whatever the message, the
    body is exactly one line and the quoted text ends where the line
    ends. *)
Theorem error_body_is_one_line (s : Z) (err : error) (w : World) :
  sentBytes (lres w) = 0 ->
  rwWriteHeader res (sinkCalls w ++ errorHeaders)%list s = Returned tt ->
  exists body,
    sinkCalls (snd (LogError isPrintTable clock res req s err w)) =
      (sinkCalls w ++ errorHeaders ++ [CallWriteHeader s; CallWrite body])%list /\
    body = Quote isPrintTable (Error (rootCause err)) ++ str1 newline /\
    oneLine body /\
    scanQuoted body = Some (str1 newline).
Proof.
  intros Hs Hh. eexists. rewrite LogError_unfold. cbv zeta. rewrite Hs.
  cbn [Z.eqb snd sinkCalls]. unfold errorResponse. rewrite Hh.
  split; [reflexivity|]. split; [reflexivity|]. split; [|apply Quote_scan].
  unfold oneLine. split.
  - rewrite countByte_app.
    rewrite (notControl_no_newline _ (Quote_notControl isPrintTable _)). reflexivity.
  - apply lastByte_app_str1.
Qed.


(** X13. With a clock whose monotonic readings do not go back, the
    duration of the finalizing record is not negative. *)
Theorem elapsed_time_is_not_negative (next : Handler) (w0 : World) :
  (forall i j, (i <= j)%nat -> mono (clock i) <= mono (clock j)) ->
  let w1 := snd (runHandler isPrintTable clock res req next (atStart w0)) in
  let elapsed := time.Sub (clock (clockReads w1)) (clock (clockReads w0)) in
  0 <= time.Milliseconds elapsed /\
  logWriter (snd (ServeHTTP isPrintTable clock res req next w0)) =
    (logWriter w1 ++
     if wrote (lres w1) then []
     else [logLine (time.Format_RFC3339 (clock (S (clockReads w1))))
                   (remoteHost (RemoteAddr req)) (Method req) (URL req)
                   (status (lres w1)) (time.Milliseconds elapsed)
                   (sentBytes (lres w1)) (CompressionRatioOf (lres w1))
                   (Quote isPrintTable (UserAgent req))
                   (Quote isPrintTable EmptyString)])%list.
Proof.
  intros Hmono. cbv zeta. split.
  - destruct (runHandler_appends isPrintTable clock res req next (atStart w0))
      as [_ [_ [_ [_ [_ [_ [_ Hk]]]]]]].
    cbn [atStart clockReads] in Hk.
    pose proof (Hmono (clockReads w0)
                  (clockReads (snd (runHandler isPrintTable clock res req next (atStart w0))))
                  ltac:(lia)) as Hm.
    unfold time.Milliseconds, time.Sub, sat64, int_min, int_max.
    apply Z.quot_pos; lia.
  - rewrite ServeHTTP_unfold. cbv zeta. cbn [snd].
    rewrite finalLog_unfold, Log_unfold. unfold tick.
    cbn [snd lres logWriter sinkCalls clockReads].
    destruct (wrote (lres (snd (runHandler isPrintTable clock res req next (atStart w0)))));
      cbn [logWriter]; rewrite ?app_nil_r; reflexivity.
Qed.

(** X14. A handler that only sets headers, hijacks the connection or asks
    for the compression ratio is logged by [ServeHTTP] with status 0,
    zero bytes, the sentinel ratio and the empty message, whether the
    hijack succeeds, fails or panics. *)
Theorem passive_handler_is_logged_with_status_0 (next : Handler) (w0 : World) :
  usesOnly isPassiveOp next ->
  let w1 := snd (runHandler isPrintTable clock res req next (atStart w0)) in
  let w2 := snd (ServeHTTP isPrintTable clock res req next w0) in
  logWriter w2 =
    (logWriter w0 ++
     [recordOf isPrintTable clock req (tick w1) 0
               (time.Sub (clock (clockReads w1)) (clock (clockReads w0))) 0 "-" ""])%list /\
  lres w2 = mkLRW 0 0 0 true.
Proof.
  intros Hp. cbv zeta. rewrite ServeHTTP_unfold. cbv zeta. cbn [snd].
  destruct (runHandler_passive isPrintTable clock res req next (atStart w0) Hp)
    as [Hl Hlog].
  rewrite finalLog_unfold, Log_unfold. unfold tick.
  cbn [snd lres logWriter sinkCalls clockReads].
  rewrite Hl, Hlog. cbn. auto.
Qed.

(** X15. For a handler that uses only the methods of
    [http.ResponseWriter], the [LoggingResponseWriter] is transparent:
    the handler ends the same way and the real sink receives the same
    calls, in the same order, as when the handler is run on the real
    sink itself; and the handler writes nothing to the log. *)
Theorem wrapper_is_transparent (h : Handler) (w : World) :
  usesOnly isInterfaceOp h ->
  fst (runHandler isPrintTable clock res req h w) = fst (runDirect res h w) /\
  sinkCalls (snd (runHandler isPrintTable clock res req h w)) =
    sinkCalls (snd (runDirect res h w)) /\
  logWriter (snd (runHandler isPrintTable clock res req h w)) = logWriter w.
Proof.
  intros Hu.
  assert (Hgen : forall h w w',
             usesOnly isInterfaceOp h -> sinkCalls w = sinkCalls w' ->
             fst (runHandler isPrintTable clock res req h w) = fst (runDirect res h w') /\
             sinkCalls (snd (runHandler isPrintTable clock res req h w)) =
               sinkCalls (snd (runDirect res h w')) /\
             logWriter (snd (runHandler isPrintTable clock res req h w)) = logWriter w).
  { clear h w Hu. induction h as [|v|op k IH]; intros w w' Hu Hs.
    - cbn. auto.
    - cbn. auto.
    - destruct Hu as [Hop Hk]. cbn [runHandler runDirect]. unfold bind.
      destruct (runOp_direct isPrintTable clock res req op w w' Hop Hs) as [Hf [Hc Hl]].
      destruct (runOp isPrintTable clock res req op w) as [[r|v] w1];
        destruct (runOpDirect res op w') as [[r'|v'] w1']; cbn [fst snd] in *;
        try discriminate Hf.
      + inversion Hf; subst r'.
        destruct (IH r w1 w1' (Hk r) Hc) as [H1 [H2 H3]].
        rewrite H3. auto.
      + inversion Hf; subst v'. auto. }
  apply Hgen; auto.
Qed.

End Extras.

(** X10. Two requests served one after the other on the same log writer:
    each gets a new struct, so the second is logged although the first
    left its flag up, and the log has grown by the record of the first
    followed by the record of the second. *)
Theorem each_request_logs_its_own_record (isPrintTable : Z -> bool)
    (clock : nat -> time_Time) (res1 res2 : ResponseWriter) (req1 req2 : Request)
    (h1 h2 : Handler) (w0 : World) :
  let w1 := snd (ServeHTTP isPrintTable clock res1 req1 h1 w0) in
  let w2 := snd (ServeHTTP isPrintTable clock res2 req2 h2 w1) in
  wrote (lres w1) = true /\
  exists r1 r2,
    logWriter w1 = (logWriter w0 ++ [r1])%list /\
    logWriter w2 = (logWriter w0 ++ [r1; r2])%list.
Proof.
  cbv zeta.
  destruct (ServeHTTP_one_record isPrintTable clock res1 req1 h1 w0) as [r1 [H1 Hw1]].
  destruct (ServeHTTP_one_record isPrintTable clock res2 req2 h2
              (snd (ServeHTTP isPrintTable clock res1 req1 h1 w0))) as [r2 [H2 _]].
  split; [exact Hw1|]. exists r1, r2. split; [exact H1|].
  rewrite H2, H1, <- app_assoc. reflexivity.
Qed.

(** ** Concrete runs of the further properties *)

Lemma remoteHost_of_host_and_port_witness :
  countByte ":" "10.0.0.7" = 0%nat /\ remoteHost "10.0.0.7:51234" = "10.0.0.7".
Proof.
  split; [reflexivity|].
  exact (proj2 (remoteHost_of_host_and_port "10.0.0.7" eq_refl) "51234").
Defined.

Lemma Write_status_rule_witness :
  status (lres (snd (bind (WriteHeader Sample.plainSink 404)
                          (fun _ => Write Sample.plainSink "x") Sample.world0))) = 404.
Proof.
  apply (proj2 (proj2 (proj2 (proj2
           (Write_status_rule Sample.plainSink "x" Sample.world0)))) 404).
  reflexivity.
Defined.

Lemma sentBytes_is_what_the_sink_accepted_witness :
  exists calls,
    sinkCalls (snd (runHandler Sample.allPrintable Sample.clock Sample.plainSink
                               Sample.req Sample.writes10 Sample.world0)) =
      (sinkCalls Sample.world0 ++ calls)%list /\
    sentBytes (lres (snd (runHandler Sample.allPrintable Sample.clock Sample.plainSink
                                     Sample.req Sample.writes10 Sample.world0))) =
      wrap64 (sentBytes (lres Sample.world0) +
              acceptedBytes Sample.plainSink (sinkCalls Sample.world0) calls).
Proof.
  apply (sentBytes_is_what_the_sink_accepted Sample.allPrintable Sample.clock
           Sample.plainSink Sample.req Sample.writes10 Sample.world0).
  - simpl. auto.
  - unfold in_int, int_min, int_max. simpl. lia.
Defined.

Lemma only_Write_counts_witness :
  sentBytes (lres (snd (runHandler Sample.allPrintable Sample.clock Sample.plainSink
                                   Sample.req Sample.failsTwice Sample.world0))) = 0.
Proof.
  apply (only_Write_counts Sample.allPrintable Sample.clock Sample.plainSink
           Sample.req Sample.failsTwice Sample.world0).
  simpl. auto.
Defined.


Lemma logged_record_is_final_witness :
  logWriter (snd (runHandler Sample.allPrintable Sample.clock Sample.plainSink
                             Sample.req Sample.failsTwice MoreSamples.loggedWorld)) =
  ["an earlier record"].
Proof.
  apply (proj1 (logged_record_is_final Sample.allPrintable Sample.clock
                  Sample.plainSink Sample.req Sample.failsTwice MoreSamples.loggedWorld)).
  reflexivity.
Defined.

Lemma error_body_is_one_line_witness :
  exists body,
    sinkCalls (snd (LogError Sample.allPrintable Sample.clock Sample.plainSink
                             Sample.req 500 Sample.enospc Sample.world0)) =
      ([] ++ errorHeaders ++ [CallWriteHeader 500; CallWrite body])%list /\
    body = Quote Sample.allPrintable "ENOSPC" ++ str1 newline /\
    oneLine body /\
    scanQuoted body = Some (str1 newline).
Proof.
  exact (error_body_is_one_line Sample.allPrintable Sample.clock Sample.plainSink
           Sample.req 500 Sample.enospc Sample.world0 eq_refl eq_refl).
Defined.


Lemma elapsed_time_is_not_negative_witness :
  0 <= time.Milliseconds
         (time.Sub (Sample.clock
                      (clockReads (snd (runHandler Sample.allPrintable Sample.clock
                                          Sample.plainSink Sample.req Sample.writes10
                                          (atStart Sample.world0)))))
                   (Sample.clock (clockReads Sample.world0))).
Proof.
  apply (elapsed_time_is_not_negative Sample.allPrintable Sample.clock Sample.plainSink
           Sample.req Sample.writes10 Sample.world0).
  intros i j Hij. simpl. lia.
Defined.

Lemma passive_handler_is_logged_with_status_0_witness :
  lres (snd (ServeHTTP Sample.allPrintable Sample.clock Sample.hijackableSink
                       Sample.req MoreSamples.hijacks Sample.world0)) =
  mkLRW 0 0 0 true.
Proof.
  apply (passive_handler_is_logged_with_status_0 Sample.allPrintable Sample.clock
           Sample.hijackableSink Sample.req MoreSamples.hijacks Sample.world0).
  simpl. auto.
Defined.

Lemma wrapper_is_transparent_witness :
  sinkCalls (snd (runHandler Sample.allPrintable Sample.clock Sample.plainSink
                             Sample.req Sample.writes10 Sample.world0)) =
  sinkCalls (snd (runDirect Sample.plainSink Sample.writes10 Sample.world0)).
Proof.
  apply (wrapper_is_transparent Sample.allPrintable Sample.clock Sample.plainSink
           Sample.req Sample.writes10 Sample.world0).
  simpl. auto.
Defined.
